(** * node-manager: the mindreader plugin, the nodeos monitor and the archiver

    Shallow embedding of
    - [src/mindreader/mindreader.go]             (module [MindReader]),
    - the mindreader.go kept in [src/unnamed/part_001], the variant that
      owns file uploaders, a start gate and an upload grace period
                                                 (module [MindReaderUploader]),
    - the nodeos supervisor monitor of [src/unnamed/part_000]
                                                 (module [Nodeos]),
    - the archiver test double of [src/unnamed/part_000] and the archiver
      scenarios of [src/unnamed/part_001]        (module [Archiver]).

    A goroutine is modelled by what it does against an explicit
    environment: every effect it performs is recorded, in program order, in
    a trace of events; what the other goroutines do (the console reader,
    the shutter's terminating flag, the archiver's terminated signal)
    enters as an argument. *)

From Stdlib Require Import String Ascii Bool ZArith NArith Lia List.
Import ListNotations.

Local Open Scope string_scope.
Local Open Scope bool_scope.
Local Open Scope list_scope.

(* ===================================================================== *)
(** ** Go values shared by the packages *)
(* ===================================================================== *)

Module Go.

(** Go [error] values.  [io.EOF] is a sentinel compared with [==];
    [fmt.Errorf] with [%w] wraps its cause, with [%q] it quotes a string. *)
Inductive error : Type :=
| EOF
| Errorf (format : string) (arg : string)
| Wrapf (format : string) (cause : error)
| Foreign (what : string).

Fixpoint error_eqb (a b : error) : bool :=
  match a, b with
  | EOF, EOF => true
  | Errorf f x, Errorf g y => String.eqb f g && String.eqb x y
  | Wrapf f x, Wrapf g y => String.eqb f g && error_eqb x y
  | Foreign x, Foreign y => String.eqb x y
  | _, _ => false
  end.

(** [err == io.EOF] *)
Definition is_EOF (e : error) : bool :=
  match e with EOF => true | _ => false end.

(** [err != nil] *)
Definition failed (r : option error) : bool :=
  match r with Some _ => true | None => false end.

(** A buffered channel [make(chan A, cap)]: the queued values, oldest
    first, and whether [close] was called.  A nil channel is [None] at the
    use site. *)
Record chan (A : Type) : Type := mkChan {
  cap : N;
  buf : list A;
  closed : bool
}.
Arguments mkChan {A} _ _ _.
Arguments cap {A} _.
Arguments buf {A} _.
Arguments closed {A} _.

Definition make {A : Type} (capacity : N) : chan A := mkChan capacity [] false.

(** What [ch <- v] does at the moment it is executed. *)
Inductive send_result (A : Type) : Type :=
| Sent (ch' : chan A)      (* the value is queued *)
| SendWaits                (* buffer full: the sender is parked until a receive *)
| SendPanics               (* send on a closed channel *)
| SendNil.                 (* send on a nil channel: parked for ever *)
Arguments Sent {A} _.
Arguments SendWaits {A}.
Arguments SendPanics {A}.
Arguments SendNil {A}.

Definition send {A : Type} (ch : option (chan A)) (v : A) : send_result A :=
  match ch with
  | None => SendNil
  | Some c =>
      if closed c then SendPanics
      else if N.ltb (N.of_nat (length (buf c))) (cap c)
           then Sent (mkChan (cap c) (buf c ++ [v]) (closed c))
           else SendWaits
  end.

(** [close(ch)] on a non-nil, open channel. *)
Definition close {A : Type} (c : chan A) : chan A :=
  mkChan (cap c) (buf c) true.

End Go.

(* ===================================================================== *)
(** ** The one-block suffix pattern *)
(* ===================================================================== *)

Module Suffix.

(** A bracket expression is a list of ranges and single characters. *)
Inductive class_item : Type :=
| Range (lo hi : ascii)
| Lit (c : ascii).

Definition in_item (c : ascii) (it : class_item) : bool :=
  match it with
  | Range lo hi =>
      (N.leb (N_of_ascii lo) (N_of_ascii c)) && (N.leb (N_of_ascii c) (N_of_ascii hi))
  | Lit d => Ascii.eqb c d
  end.

Definition in_class (cls : list class_item) (c : ascii) : bool :=
  existsb (in_item c) cls.

(** [\w] of RE2: [[0-9A-Za-z_]], ASCII only. *)
Definition perl_word : list class_item :=
  [Range "0" "9"; Range "A" "Z"; Lit "_"; Range "a" "z"].

(** [[\w\-]] *)
Definition suffix_class : list class_item := perl_word ++ [Lit "-"].

Fixpoint all_in (cls : list class_item) (s : string) : bool :=
  match s with
  | EmptyString => true
  | String c rest => in_class cls c && all_in cls rest
  end.

(** [oneblockSuffixRegexp.MatchString], for
    [regexp.MustCompile(`^[\w\-]+$`)]: the whole text, at least one
    character, every character in the class. *)
Definition oneblockSuffixRegexp_MatchString (s : string) : bool :=
  match s with
  | EmptyString => false
  | String _ _ => all_in suffix_class s
  end.

End Suffix.

(* ===================================================================== *)
(** ** Blocks, and the effects a plugin goroutine performs *)
(* ===================================================================== *)

Module Bstream.

(** [bstream.Block], the fields the plugin and the archiver read.
    [Timestamp] is an instant in nanoseconds since the Unix epoch. *)
Record Block : Type := mkBlock {
  Id : string;
  Number : N;
  PreviousId : string;
  Timestamp : Z;
  LibNum : N
}.

End Bstream.

Module Effects.
Import Go Bstream.

(** One entry per observable action of the ingest and consumer goroutines.
    Durations are [time.Duration] values (nanoseconds). *)
Inductive event : Type :=
| HeadBlockUpdate (num : N) (id : string) (time : Z) (* p.headBlockUpdateFunc(..) *)
| BlocksSend (b : Block)                 (* blocks <- block *)
| BlocksClose                            (* close(blocks) *)
| Shutdown (err : option error)          (* p.Shutdown(err) *)
| GoShutdown (err : option error)        (* go p.Shutdown(err) *)
| LinesRecv (line : string)              (* one line taken off p.lines *)
| StoreBlock (b : Block)                 (* p.archiver.StoreBlock(ctx, block) *)
| PushBlock (b : Block)                  (* p.blockStreamServer.PushBlock(block) *)
| Dropped (b : Block)                    (* the "dropping one block" branch *)
| ArchiverShutdown (err : option error)  (* p.archiver.Shutdown(err) *)
| ArchiverTerminated (after : Z)         (* <-p.archiver.Terminated() fired *)
| UploadTimeout (after : Z)              (* <-time.After(..) fired *)
| ReadFlowDone.                          (* deferred close(p.consumeReadFlowDone) *)

Definition trace : Type := list event.

(** A computation that performs effects and yields a value. *)
Definition M (A : Type) : Type := trace * A.

Definition ret {A : Type} (a : A) : M A := ([], a).

Definition bind {A B : Type} (c : M A) (k : A -> M B) : M B :=
  let (t1, a) := c in let (t2, b) := k a in (t1 ++ t2, b).

Definition emit (e : event) : M unit := ([e], tt).

Definition when (b : bool) (c : M unit) : M unit := if b then c else ret tt.

(** How a goroutine ends: it returns, or it stays parked on a channel
    operation nobody completes. *)
Inductive outcome : Type :=
| Returns (tr : trace)
| Parked (tr : trace).

Definition after (tr : trace) (o : outcome) : outcome :=
  match o with
  | Returns t => Returns (tr ++ t)
  | Parked t => Parked (tr ++ t)
  end.

Definition trace_of (o : outcome) : trace :=
  match o with Returns t => t | Parked t => t end.

Definition returned (o : outcome) : bool :=
  match o with Returns _ => true | Parked _ => false end.

(** What the console reader hands back on one call. *)
Definition read_result : Type := (Block + error)%type.

(** One block taken off [blocks] by the consumer, with what the
    collaborators answer for it: the archiver, the block-stream server and
    [p.IsTerminating()].  The flag only goes up, and the second test of an
    iteration is reached only when the first was skipped or found the flag
    up, so one reading per iteration covers both tests. *)
Record delivery : Type := mkDelivery {
  block : Block;
  storeErr : option error;
  pushErr : option error;
  isTerminating : bool
}.

End Effects.

Declare Scope effect_scope.
Delimit Scope effect_scope with effect.
Notation "x <- c ;; k" := (Effects.bind c (fun x => k))
  (at level 61, c at next level, right associativity) : effect_scope.
Notation "c ;; k" := (Effects.bind c (fun _ => k))
  (at level 61, right associativity) : effect_scope.

(* ===================================================================== *)
(** ** src/mindreader/mindreader.go *)
(* ===================================================================== *)

Module MindReader.
Import Go Bstream Effects.
Local Open Scope effect_scope.

(** The fields of [MindReaderPlugin] set at construction.  A function or
    pointer field is represented by whether it is non-nil. *)
Record MindReaderPlugin : Type := mkPlugin {
  archiverStartBlock : N;      (* startBlockNum, handed to NewArchiver *)
  oneBlockSuffix : string;     (* handed to NewArchiver *)
  stopBlock : N;
  channelCapacity : N;
  headBlockUpdateFunc : bool;
  blockStreamServer : bool
}.

(** The fields that change while the plugin runs: the shutter's flag and
    the [lines] channel (nil until [Launch]). *)
Record Running : Type := mkRunning {
  terminating : bool;
  lines : option (chan string)
}.

Definition validateOneBlockSuffix (suffix : string) : option error :=
  if String.eqb suffix "" then
    Some (Errorf "oneblock_suffix cannot be empty" "")
  else if negb (Suffix.oneblockSuffixRegexp_MatchString suffix) then
    Some (Errorf "oneblock_suffix contains invalid characters: %q" suffix)
  else None.

(** [NewMindReaderPlugin], without the stores it opens. *)
Definition NewMindReaderPlugin (startBlockNum stopBlockNum : N)
    (channelCapacity : N) (headBlockUpdateFunc : bool)
    (oneBlockSuffix : string) (blockStreamServer : bool)
  : MindReaderPlugin + error :=
  match validateOneBlockSuffix oneBlockSuffix with
  | Some err => inr err
  | None =>
      inl (mkPlugin startBlockNum oneBlockSuffix stopBlockNum
             channelCapacity headBlockUpdateFunc blockStreamServer)
  end.

(** [Launch], as far as the channel is concerned. *)
Definition Launch (r : Running) : Running :=
  mkRunning (terminating r) (Some (make 10000)).

Definition readOneMessage (p : MindReaderPlugin) (ReadBlock : read_result)
    (IsTerminating : bool) : M (option error) :=
  match ReadBlock with
  | inr err => ret (Some err)
  | inl block =>
      when (headBlockUpdateFunc p)
        (emit (HeadBlockUpdate (Number block) (Id block) (Timestamp block))) ;;
      emit (BlocksSend block) ;;
      when (negb (N.eqb (stopBlock p) 0) && N.leb (stopBlock p) (Number block)
            && negb IsTerminating)
        (emit (GoShutdown None)) ;;
      ret None
  end.

(** [for line := range p.lines]: every queued line is received; the loop
    ends when the channel is closed.  [closed] tells whether [Stop] closes
    the channel; on a channel nobody closes, and on a nil channel, the
    receiver stays parked. *)
Definition drainMessages (lines : option (chan string)) : M bool :=
  match lines with
  | None => ret false
  | Some c => (map LinesRecv (buf c), closed c)
  end.

(** The goroutine of [launch].  [reads] lists what each successive
    [ReadBlock] call returns, with the shutter's flag as
    [readOneMessage] finds it; once the list is used up the reader does not
    return any more.  A send on [blocks] is recorded when it is made: the
    consumer is taken to receive it. *)
Fixpoint ingest (p : MindReaderPlugin) (reads : list (read_result * bool))
    (lines : option (chan string)) : outcome :=
  match reads with
  | [] => Parked []
  | (rd, term) :: rest =>
      let (tr, err) := readOneMessage p rd term in
      match err with
      | None => after tr (ingest p rest lines)
      | Some err =>
          if is_EOF err then Returns (tr ++ [BlocksClose])
          else
            let (drained, done) := drainMessages lines in
            if done
            then Returns (tr ++ Shutdown (Some err) :: drained ++ [BlocksClose])
            else Parked (tr ++ Shutdown (Some err) :: drained)
      end
  end.

(** One iteration of the loop of [consumeReadFlow] on a received block. *)
Definition consumeBlock (p : MindReaderPlugin) (d : delivery) : M unit :=
  let b := block d in
  let push : M unit :=
    if blockStreamServer p then
      emit (PushBlock b) ;;
      match pushErr d with
      | Some err =>
          when (negb (isTerminating d))
            (emit (GoShutdown (Some (Wrapf "blockstreamserver failed: %w" err))))
      | None => ret tt
      end
    else ret tt in
  emit (StoreBlock b) ;;
  match storeErr d with
  | Some err =>
      if negb (isTerminating d)
      then emit (GoShutdown (Some (Wrapf "archiver store block failed: %w" err)))
      else push
  | None => push
  end.

(** [consumeReadFlow] on a [blocks] channel that delivers [blocks] and is
    then closed.  [terminated] is the delay after which
    [p.archiver.Terminated()] fires, [None] when it never does.  The call
    [p.archiver.Shutdown(nil)] is taken to return. *)
Fixpoint consumeReadFlow (p : MindReaderPlugin) (blocks : list delivery)
    (terminated : option Z) : outcome :=
  match blocks with
  | [] =>
      match terminated with
      | Some t =>
          Returns [ArchiverShutdown None; ArchiverTerminated (Z.max 0 t); ReadFlowDone]
      | None => Parked [ArchiverShutdown None]
      end
  | d :: rest => after (fst (consumeBlock p d)) (consumeReadFlow p rest terminated)
  end.

(** How a call on the running plugin ends. *)
Inductive call : Type :=
| Done (r : Running)     (* the call returned, leaving this state *)
| Waits                  (* parked until the channel has room *)
| Panics
| Never.                 (* parked for ever *)

Definition LogLine (r : Running) (line : string) : call :=
  if terminating r then Done r
  else
    match send (lines r) line with
    | Sent c' => Done (mkRunning (terminating r) (Some c'))
    | SendWaits => Waits
    | SendPanics => Panics
    | SendNil => Never
    end.

(** [Stop] up to [waitForReadFlowToComplete]: [p.Shutdown(nil)] raises the
    flag, then [lines] is closed. *)
Definition Stop (r : Running) : call :=
  match lines r with
  | None => Done r
  | Some c =>
      if closed c then Panics
      else Done (mkRunning true (Some (close c)))
  end.

End MindReader.

(* ===================================================================== *)
(** ** The mindreader.go of src/unnamed/part_001 *)
(* ===================================================================== *)

Module MindReaderUploader.
Import Go Bstream Effects.
Local Open Scope effect_scope.

(** Modelled from the spec: [BlockNumberGate], [NewBlockNumberGate] and the
    gate's [pass] method are used by this file but declared nowhere under
    src/.  The spec (4.5) gives the gate as "the optional start gate
    ([num >= start_block])". *)
Record BlockNumberGate : Type := mkGate { gateBlockNum : N }.

Definition NewBlockNumberGate (blockNum : N) : BlockNumberGate := mkGate blockNum.

Definition pass (g : BlockNumberGate) (b : Block) : bool :=
  N.leb (gateBlockNum g) (Number b).

Section Plugin.

(** What the console reader yields ([interface{}] in the source). *)
Variable Obj : Type.

Record MindReaderPlugin : Type := mkPlugin {
  startGate : BlockNumberGate;
  stopBlock : N;
  waitUploadCompleteOnShutdown : Z;
  transformer : Obj -> Block + error;
  channelCapacity : N;
  blockStreamServer : bool;
  headBlockUpdateFunc : bool
}.

Definition validateOneBlockSuffix (suffix : string) : option error :=
  if negb (String.eqb suffix "") && negb (Suffix.oneblockSuffixRegexp_MatchString suffix)
  then Some (Errorf "oneblock_suffix contains invalid characters: %q" suffix)
  else None.

(** [NewMindReaderPlugin] over [newMindReaderPlugin], without the stores
    and uploaders it creates. *)
Definition NewMindReaderPlugin
    (consoleReaderTransformer : Obj -> Block + error)
    (startBlockNum stopBlockNum : N) (channelCapacity : N)
    (headBlockUpdateFunc : bool) (waitUploadCompleteOnShutdown : Z)
    (oneblockSuffix : string) (blockStreamServer : bool)
  : MindReaderPlugin + error :=
  match validateOneBlockSuffix oneblockSuffix with
  | Some err => inr err
  | None =>
      inl (mkPlugin (NewBlockNumberGate startBlockNum) stopBlockNum
             waitUploadCompleteOnShutdown consoleReaderTransformer
             channelCapacity blockStreamServer headBlockUpdateFunc)
  end.

Definition readOneMessage (p : MindReaderPlugin) (Read : Obj + error)
    (IsTerminating : bool) : M (option error) :=
  match Read with
  | inr err => ret (Some err)
  | inl obj =>
      match transformer p obj with
      | inr err =>
          ret (Some (Wrapf "unable to transform console read obj to bstream.Block: %w" err))
      | inl block =>
          if negb (pass (startGate p) block) then ret None
          else
            when (headBlockUpdateFunc p)
              (emit (HeadBlockUpdate (Number block) (Id block) (Timestamp block))) ;;
            emit (BlocksSend block) ;;
            when (negb (N.eqb (stopBlock p) 0) && N.leb (stopBlock p) (Number block)
                  && negb IsTerminating)
              (emit (GoShutdown None)) ;;
            ret None
      end
  end.

(** One iteration of the loop of [consumeReadFlow] on a received block;
    the value is [dropBlocks] after the iteration. *)
Definition consumeBlock (p : MindReaderPlugin) (dropBlocks : bool)
    (d : delivery) : M bool :=
  let b := block d in
  let push : M bool :=
    if blockStreamServer p then
      emit (PushBlock b) ;;
      match pushErr d with
      | Some err =>
          when (negb (isTerminating d))
            (emit (GoShutdown (Some (Wrapf "blockstreamserver failed: %w" err)))) ;;
          ret false
      | None => ret false
      end
    else ret false in
  if dropBlocks then emit (Dropped b) ;; ret true
  else
    emit (StoreBlock b) ;;
    match storeErr d with
    | Some err =>
        if negb (isTerminating d)
        then emit (GoShutdown (Some (Wrapf "archiver store block failed: %w" err))) ;;
             ret true
        else push
    | None => push
    end.

(** The [select] entered after [p.archiver.Shutdown(nil)].
    [time.After(d)] fires after [d], at once when [d <= 0]; [terminated] is
    the delay after which [p.archiver.Terminated()] fires, [None] when it
    never does.  When both are ready at the same instant Go picks one of
    them: [timerOnTie] is that choice. *)
Definition awaitUpload (wait : Z) (terminated : option Z) (timerOnTie : bool)
  : event :=
  let timer := Z.max 0 wait in
  match terminated with
  | None => UploadTimeout timer
  | Some t =>
      let t := Z.max 0 t in
      if Z.ltb t timer then ArchiverTerminated t
      else if Z.ltb timer t then UploadTimeout timer
      else if timerOnTie then UploadTimeout timer
      else ArchiverTerminated t
  end.

(** The loop of [consumeReadFlow] from a given value of [dropBlocks], on a
    [blocks] channel that delivers [blocks] and is then closed.  The call
    [p.archiver.Shutdown(nil)] is taken to return. *)
Fixpoint consumeLoop (p : MindReaderPlugin) (dropBlocks : bool)
    (blocks : list delivery) (terminated : option Z) (timerOnTie : bool)
  : outcome :=
  match blocks with
  | [] =>
      Returns [ArchiverShutdown None;
               awaitUpload (waitUploadCompleteOnShutdown p) terminated timerOnTie;
               ReadFlowDone]
  | d :: rest =>
      let (tr, drop') := consumeBlock p dropBlocks d in
      after tr (consumeLoop p drop' rest terminated timerOnTie)
  end.

Definition consumeReadFlow (p : MindReaderPlugin) (blocks : list delivery)
    (terminated : option Z) (timerOnTie : bool) : outcome :=
  consumeLoop p false blocks terminated timerOnTie.

(** The goroutine of [launch]: on [io.EOF] it closes [blocks] and returns;
    on any other error it calls [p.Shutdown(err)] and goes on reading.
    [reads] lists what each successive [Read] call returns, with the
    shutter's flag as [readOneMessage] finds it; once the list is used up
    the reader does not return any more. *)
Fixpoint ingest (p : MindReaderPlugin) (reads : list ((Obj + error) * bool))
  : outcome :=
  match reads with
  | [] => Parked []
  | (rd, term) :: rest =>
      let (tr, err) := readOneMessage p rd term in
      match err with
      | None => after tr (ingest p rest)
      | Some err =>
          if is_EOF err then Returns (tr ++ [BlocksClose])
          else after (tr ++ [Shutdown (Some err)]) (ingest p rest)
      end
  end.

End Plugin.

Arguments mkPlugin {Obj} _ _ _ _ _ _ _.
Arguments startGate {Obj} _.
Arguments stopBlock {Obj} _.
Arguments waitUploadCompleteOnShutdown {Obj} _.
Arguments transformer {Obj} _ _.
Arguments blockStreamServer {Obj} _.
Arguments headBlockUpdateFunc {Obj} _.
Arguments NewMindReaderPlugin {Obj} _ _ _ _ _ _ _ _.
Arguments readOneMessage {Obj} _ _ _.
Arguments consumeBlock {Obj} _ _ _.
Arguments consumeLoop {Obj} _ _ _ _ _.
Arguments consumeReadFlow {Obj} _ _ _ _.
Arguments ingest {Obj} _ _.

(** [LogLine], the same text as in src/mindreader/mindreader.go. *)
Definition LogLine (r : MindReader.Running) (line : string) : MindReader.call :=
  if MindReader.terminating r then MindReader.Done r
  else
    match send (MindReader.lines r) line with
    | Sent c' => MindReader.Done (MindReader.mkRunning (MindReader.terminating r) (Some c'))
    | SendWaits => MindReader.Waits
    | SendPanics => MindReader.Panics
    | SendNil => MindReader.Never
    end.

(** [Stop] up to [waitForReadFlowToComplete]: [lines] is closed; the
    shutter is not touched. *)
Definition Stop (r : MindReader.Running) : MindReader.call :=
  match MindReader.lines r with
  | None => MindReader.Done r
  | Some c =>
      if closed c then MindReader.Panics
      else MindReader.Done (MindReader.mkRunning (MindReader.terminating r) (Some (close c)))
  end.

End MindReaderUploader.

(* ===================================================================== *)
(** ** The nodeos supervisor monitor (src/unnamed/part_000) *)
(* ===================================================================== *)

Module Nodeos.
Import Go.

Local Open Scope Z_scope.

(** Go's [int] on a 64-bit platform. *)
Definition int_wrap (z : Z) : Z := (z + 2 ^ 63) mod 2 ^ 64 - 2 ^ 63.

(** [uint32(x)] *)
Definition uint32 (x : Z) : Z := x mod 2 ^ 32.

(** The answer of [s.api.GetInfo]; times are nanoseconds since the epoch. *)
Record InfoResp : Type := mkInfo {
  ChainID : string;
  ServerVersion : string;
  ServerVersionString : string;
  HeadBlockNum : Z;
  HeadBlockTime : Z
}.

Record Options : Type := mkOptions {
  MonitorHeadBlock : bool;
  ReadinessMaxLatency : Z      (* a time.Duration *)
}.

(** The supervisor fields [Monitor] touches, with the loop's own
    variables [lastHeadBlockTime] and [getInfoFailureCount]. *)
Record NodeosSuperviser : Type := mkSuperviser {
  options : Options;
  readinessProbe : bool;
  chainID : string;
  serverVersion : string;
  serverVersionString : string;
  lastBlockSeen : Z;
  headBlockNumber : option Z;           (* the head-block gauge *)
  headBlockTimeDrift : option Z;        (* the block time the drift gauge holds *)
  lastHeadBlockTime : Z;
  getInfoFailureCount : Z;
  logged : list string                  (* s.Logger.Info lines, oldest first *)
}.

Definition with_probe (s : NodeosSuperviser) (probe : bool) (msg : list string)
  : NodeosSuperviser :=
  mkSuperviser (options s) probe (chainID s) (serverVersion s)
    (serverVersionString s) (lastBlockSeen s) (headBlockNumber s)
    (headBlockTimeDrift s) (lastHeadBlockTime s) (getInfoFailureCount s)
    (logged s ++ msg).

Definition with_count (s : NodeosSuperviser) (count : Z) : NodeosSuperviser :=
  mkSuperviser (options s) (readinessProbe s) (chainID s) (serverVersion s)
    (serverVersionString s) (lastBlockSeen s) (headBlockNumber s)
    (headBlockTimeDrift s) (lastHeadBlockTime s) count (logged s).

(** [s.readinessProbe.CAS(false, true)] and the log line on success. *)
Definition setReadinessProbeOn (s : NodeosSuperviser) : NodeosSuperviser :=
  if negb (readinessProbe s)
  then with_probe s true ["nodeos superviser is now assumed to be ready"]
  else s.

(** [s.readinessProbe.CAS(true, false)] and the log line on success. *)
Definition setReadinessProbeOff (s : NodeosSuperviser) : NodeosSuperviser :=
  if readinessProbe s
  then with_probe s false ["nodeos superviser is not ready anymore"]
  else s.

(** What one pass of the loop finds after its five-second sleep:
    [now] is the clock when [time.Since(lastHeadBlockTime)] is taken. *)
Record tick : Type := mkTick {
  IsRunning : bool;
  GetInfo : InfoResp + error;
  now : Z
}.

(** The assignments made from a successful [GetInfo]. *)
Definition recordChainInfo (s : NodeosSuperviser) (info : InfoResp)
  : NodeosSuperviser :=
  let monitor := MonitorHeadBlock (options s) in
  mkSuperviser (options s) (readinessProbe s)
    (ChainID info) (ServerVersion info) (ServerVersionString info)
    (uint32 (HeadBlockNum info))
    (if monitor then Some (HeadBlockNum info) else headBlockNumber s)
    (if monitor then Some (HeadBlockTime info) else headBlockTimeDrift s)
    (HeadBlockTime info)
    0
    (logged s).

(** One pass of the [for] loop of [Monitor], up to the readiness decision.
    The rest of the pass (producer-paused and database-size metrics) reads
    and writes neither the probe nor the failure counter. *)
Definition monitorPass (s : NodeosSuperviser) (t : tick) : NodeosSuperviser :=
  if negb (IsRunning t) then with_count s 0
  else
    match GetInfo t with
    | inr _ =>
        let s := with_count s (int_wrap (getInfoFailureCount s + 1)) in
        if 5 <? getInfoFailureCount s then setReadinessProbeOff s else s
    | inl chainInfo =>
        let s := recordChainInfo s chainInfo in
        if (ReadinessMaxLatency (options s) =? 0)
           || (now t - lastHeadBlockTime s <? ReadinessMaxLatency (options s))
        then setReadinessProbeOn s
        else s
    end.

(** [Monitor] over the passes of a run, [getInfoFailureCount] starting at 0. *)
Definition Monitor (s : NodeosSuperviser) (ticks : list tick) : NodeosSuperviser :=
  fold_left monitorPass ticks (with_count s 0).

End Nodeos.

(* ===================================================================== *)
(** ** The archiver: test double (src/unnamed/part_000), scenarios
       (src/unnamed/part_001) and the block decision of the spec *)
(* ===================================================================== *)

Module Archiver.
Import Go Bstream.

Local Open Scope Z_scope.

Declare Scope io_scope.
Delimit Scope io_scope with io.

(** [bundle.OneBlockFile] as the tests build and read it.  Times are
    nanoseconds since the epoch.  [MemoizeData] tells whether the payload
    is at hand or only the file name is known. *)
Record OneBlockFile : Type := mkFile {
  CanonicalName : string;
  Num : N;
  BlockTime : Z;
  ID : string;
  PreviousID : string;
  InnerLibNum : N;
  MemoizeData : bool
}.

(** [oneBlockFileToBlock] of the archiver tests. *)
Definition oneBlockFileToBlock (oneBlockFile : OneBlockFile) : Block :=
  mkBlock (ID oneBlockFile) (Num oneBlockFile) (PreviousID oneBlockFile)
    (BlockTime oneBlockFile) (InnerLibNum oneBlockFile).

(** *** State and errors threaded through the I/O calls *)

Section IO.

(** The world the I/O layer acts on. *)
Variable W : Type.

Definition IOm (A : Type) : Type := W -> W * (A + error).

Definition io_ret {A : Type} (a : A) : IOm A := fun w => (w, inl a).

Definition io_bind {A B : Type} (c : IOm A) (k : A -> IOm B) : IOm B :=
  fun w =>
    match c w with
    | (w', inl a) => k a w'
    | (w', inr e) => (w', inr e)
    end.

(** A call returning only [error]. *)
Definition io_call (c : W -> W * option error) : IOm unit :=
  fun w =>
    match c w with
    | (w', None) => (w', inl tt)
    | (w', Some e) => (w', inr e)
    end.

(** A call that cannot fail. *)
Definition io_do (c : W -> W) : IOm unit := fun w => (c w, inl tt).

Fixpoint io_each {A : Type} (f : A -> IOm unit) (l : list A) : IOm unit :=
  match l with
  | [] => io_ret tt
  | x :: rest => io_bind (f x) (fun _ => io_each f rest)
  end.

(** The [ArchiverIO] interface the archiver is written against. *)
Class ArchiverIO (T : Type) : Type := {
  MergeAndStore : T -> N -> list OneBlockFile -> W -> W * option error;
  DownloadOneBlockFile : T -> OneBlockFile -> W -> W * option error;
  StoreOneBlockFile : T -> string -> Block -> W -> W * option error;
  StoreMergeableOneBlockFile : T -> string -> Block -> W -> W * option error;
  Delete : T -> list OneBlockFile -> W -> W;
  WalkMergeableOneBlockFiles : T -> W -> W * (list OneBlockFile + error)
}.

(** [TestArchiverIO]: one optional hook per method.  The hooks of the
    tests are closures over the test's variables, here the world [W]. *)
Record TestArchiverIO : Type := mkTestIO {
  MergeAndStoreFunc : option (N -> list OneBlockFile -> W -> W * option error);
  DownloadOneBlockFileFunc : option (OneBlockFile -> W -> W * option error);
  StoreOneBlockFileFunc : option (string -> Block -> W -> W * option error);
  StoreMergeableOneBlockFileFunc : option (string -> Block -> W -> W * option error);
  DeleteOneBlockFilesFunc : option (list OneBlockFile -> W -> W);
  WalkMergeableOneBlockFilesFunc : option (W -> W * (list OneBlockFile + error))
}.

(** [io := &TestArchiverIO{}] *)
Definition emptyTestIO : TestArchiverIO := mkTestIO None None None None None None.

(** The methods of [TestArchiverIO]: a nil hook returns nil. *)
#[export] Instance TestArchiverIO_ArchiverIO : ArchiverIO TestArchiverIO := {
  MergeAndStore io inclusiveLowerBlock oneBlockFiles w :=
    match MergeAndStoreFunc io with
    | None => (w, None)
    | Some f => f inclusiveLowerBlock oneBlockFiles w
    end;
  DownloadOneBlockFile io oneBlockFile w :=
    match DownloadOneBlockFileFunc io with
    | None => (w, None)
    | Some f => f oneBlockFile w
    end;
  StoreOneBlockFile io fileName block w :=
    match StoreOneBlockFileFunc io with
    | None => (w, None)
    | Some f => f fileName block w
    end;
  StoreMergeableOneBlockFile io fileName block w :=
    match StoreMergeableOneBlockFileFunc io with
    | None => (w, None)
    | Some f => f fileName block w
    end;
  Delete io oneBlockFiles w :=
    match DeleteOneBlockFilesFunc io with
    | None => w
    | Some f => f oneBlockFiles w
    end;
  WalkMergeableOneBlockFiles io w :=
    match WalkMergeableOneBlockFilesFunc io with
    | None => (w, inl [])
    | Some f => f w
    end
}.

End IO.

Arguments MergeAndStore {W T _} _ _ _ _.
Arguments DownloadOneBlockFile {W T _} _ _ _.
Arguments StoreOneBlockFile {W T _} _ _ _ _.
Arguments StoreMergeableOneBlockFile {W T _} _ _ _ _.
Arguments Delete {W T _} _ _ _.
Arguments WalkMergeableOneBlockFiles {W T _} _ _.
Arguments io_ret {W A} _ _.
Arguments io_bind {W A B} _ _ _.
Arguments io_call {W} _ _.
Arguments io_do {W} _ _.
Arguments io_each {W A} _ _ _.
Arguments mkTestIO {W} _ _ _ _ _ _.
Arguments emptyTestIO {W}.
Arguments MergeAndStoreFunc {W} _.
Arguments DownloadOneBlockFileFunc {W} _.
Arguments StoreOneBlockFileFunc {W} _.
Arguments StoreMergeableOneBlockFileFunc {W} _.
Arguments DeleteOneBlockFilesFunc {W} _.
Arguments WalkMergeableOneBlockFilesFunc {W} _.

Notation "x <- c ;; k" := (io_bind c (fun x => k))
  (at level 61, c at next level, right associativity) : io_scope.
Notation "c ;; k" := (io_bind c (fun _ => k))
  (at level 61, right associativity) : io_scope.

(** *** The bundler *)

(** Modelled from the spec: the bundler (package merger/bundle) is a
    dependency whose source is not under src/.  Spec 3 and 4.1: the state is
    [{ size, lib_floor, accepted: ordered set by (num, id), current_lower }];
    a range is complete once the first block at or beyond
    [current_lower + size] has been seen, and the files emitted are those on
    the [previous_id] chain that ends at that block; [commit] advances
    [current_lower] by [size] and drains the range, fork orphans included.
    The spec's "gaps abort" is not kept: the scenario
    [TestArchiver_StoreBlock_NewBlocksBatchModeNonConnectedPartial_MultipleBoundaries]
    of src/unnamed/part_001 merges twice across a missing block 3. *)
Record Bundler : Type := mkBundler {
  size : N;
  libFloor : N;
  accepted : list OneBlockFile;
  currentLower : N
}.

(** [bundle.NewBundler(size, firstExclusiveHighestBlockLimit)] *)
Definition NewBundler (bundleSize firstExclusiveHighestBlockLimit : N) : Bundler :=
  mkBundler bundleSize 0 [] (firstExclusiveHighestBlockLimit - bundleSize)%N.

Definition BundleInclusiveLowerBlock (b : Bundler) : N := currentLower b.

(** Order by [num] ascending, ties by [id]. *)
Definition file_ltb (f g : OneBlockFile) : bool :=
  N.ltb (Num f) (Num g)
  || (N.eqb (Num f) (Num g) && String.ltb (ID f) (ID g)).

Definition same_block (f g : OneBlockFile) : bool :=
  N.eqb (Num f) (Num g) && String.eqb (ID f) (ID g).

Fixpoint insertFile (f : OneBlockFile) (l : list OneBlockFile) : list OneBlockFile :=
  match l with
  | [] => [f]
  | g :: rest =>
      if same_block f g then l
      else if file_ltb f g then f :: l
      else g :: insertFile f rest
  end.

Definition AddOneBlockFile (b : Bundler) (f : OneBlockFile) : Bundler :=
  mkBundler (size b) (N.max (libFloor b) (InnerLibNum f))
    (insertFile f (accepted b)) (currentLower b).

(** The files of [[lower, boundary)] met when following [previous_id]
    links backwards from [prev], oldest first. *)
Fixpoint chainBack (fuel : nat) (files : list OneBlockFile) (lower boundary : N)
    (prev : string) (acc : list OneBlockFile) : list OneBlockFile :=
  match fuel with
  | O => acc
  | S fuel' =>
      match find (fun f => String.eqb (ID f) prev) files with
      | Some f =>
          if N.leb lower (Num f) && N.ltb (Num f) boundary
          then chainBack fuel' files lower boundary (PreviousID f) (f :: acc)
          else acc
      | None => acc
      end
  end.

(** [bundle_complete_size]: the files of the completed range, if any. *)
Definition BundleCompleted (b : Bundler) : option (list OneBlockFile) :=
  let boundary := (currentLower b + size b)%N in
  match find (fun f => N.leb boundary (Num f)) (accepted b) with
  | None => None
  | Some crossing =>
      Some (chainBack (length (accepted b)) (accepted b) (currentLower b)
              boundary (PreviousID crossing) [])
  end.

(** [commit] *)
Definition Commit (b : Bundler) : Bundler :=
  let boundary := (currentLower b + size b)%N in
  mkBundler (size b) (libFloor b)
    (filter (fun f => N.leb boundary (Num f)) (accepted b)) boundary.

(** The files still held. *)
Definition Pending (b : Bundler) : list OneBlockFile := accepted b.

(** *** The archiver *)

(** Modelled from the spec: [Archiver], [NewArchiver] and [storeBlock] are
    not under src/; only their tests are.  The state is that of spec 3, the
    lanes and the merge steps those of spec 4.3.  Where the decision tree
    of the spec and the tests of src/unnamed/part_001 part, the tests are
    followed:
    - a block that is recent, or any block once [currentlyMerging] is
      cleared, goes to the uploadable lane even when a bundler is open;
      the files the bundler still holds are then stored in the uploadable
      lane too and the bundler is dropped
      ([TestArchiver_StoreBlockNewBlocksWithExistingBundlerBlocks],
      [TestArchiver_Store_OneBlock_after_last_merge],
      [TestArchiver_OldBlockToNewBlocksPassThrough]);
    - a block below the lower bound of the open bundle is not written
      ([TestArchiver_StoreBlock_BundleInclusiveLowerBlock]). *)
Record Archiver : Type := mkArchiver {
  bundleSize : N;
  batchMode : bool;
  mergeThresholdBlockAge : Z;
  bundler : option Bundler;
  currentlyMerging : bool
}.

(** [NewArchiver(bundleSize, io, batchMode, tracker, mergeThresholdBlockAge, logger)]
    as the tests call it.  [currentlyMerging] starts set: the tests clear
    it by hand and nothing under src/ sets it. *)
Definition NewArchiver (bundleSize : N) (batchMode : bool)
    (mergeThresholdBlockAge : Z) : Archiver :=
  mkArchiver bundleSize batchMode mergeThresholdBlockAge None true.

Definition with_bundler (a : Archiver) (b : option Bundler) : Archiver :=
  mkArchiver (bundleSize a) (batchMode a) (mergeThresholdBlockAge a) b
    (currentlyMerging a).

Definition with_currentlyMerging (a : Archiver) (m : bool) : Archiver :=
  mkArchiver (bundleSize a) (batchMode a) (mergeThresholdBlockAge a)
    (bundler a) m.

(** Whether the block belongs to the mergeable lane: always in batch
    mode, else while merging and [age > merge_threshold_age]. *)
Definition shouldMerge (a : Archiver) (now : Z) (block : Block) : bool :=
  batchMode a
  || (currentlyMerging a && (mergeThresholdBlockAge a <? now - Timestamp block)).

Section StoreBlock.

Variable W : Type.
Variable T : Type.
Context `{ArchiverIO W T}.
Variable io : T.

Local Open Scope io_scope.

(** Payloads known only by file name are fetched first. *)
Definition materialize (f : OneBlockFile) : IOm W unit :=
  if MemoizeData f then io_ret tt else io_call (DownloadOneBlockFile io f).

(** The files a dropped bundler still holds go to the uploadable lane. *)
Definition flushBundler (a : Archiver) : IOm W Archiver :=
  match bundler a with
  | None => io_ret a
  | Some b =>
      io_each (fun f =>
                 materialize f ;;
                 io_call (StoreOneBlockFile io (CanonicalName f) (oneBlockFileToBlock f)))
              (Pending b) ;;
      io_ret (with_bundler a None)
  end.

(** The bundler for [block], opened on the bundle that contains it; in
    batch mode it is seeded from the mergeable lane. *)
Definition openBundler (a : Archiver) (block : Block) : IOm W Bundler :=
  match bundler a with
  | Some b => io_ret b
  | None =>
      let lower := (Number block / bundleSize a * bundleSize a)%N in
      let fresh := NewBundler (bundleSize a) (lower + bundleSize a)%N in
      if batchMode a then
        seeds <- WalkMergeableOneBlockFiles io ;;
        io_ret (fold_left AddOneBlockFile seeds fresh)
      else io_ret fresh
  end.

(** A write to the mergeable lane is tried twice. *)
Definition storeMergeable (name : string) (block : Block) : IOm W unit :=
  fun w =>
    match StoreMergeableOneBlockFile io name block w with
    | (w', None) => (w', inl tt)
    | (w', Some _) => io_call (StoreMergeableOneBlockFile io name block) w'
    end.

Definition storeBlock (a : Archiver) (now : Z) (oneBlockFile : OneBlockFile)
    (block : Block) : IOm W Archiver :=
  if negb (shouldMerge a now block) then
    a <- flushBundler a ;;
    io_call (StoreOneBlockFile io (CanonicalName oneBlockFile) block) ;;
    io_ret a
  else
    b <- openBundler a block ;;
    let b := AddOneBlockFile b oneBlockFile in
    let a := with_bundler a (Some b) in
    if N.ltb (Number block) (BundleInclusiveLowerBlock b) then io_ret a
    else
      storeMergeable (CanonicalName oneBlockFile) block ;;
      match BundleCompleted b with
      | None => io_ret a
      | Some files =>
          io_each materialize files ;;
          io_call (MergeAndStore io (BundleInclusiveLowerBlock b) files) ;;
          io_do (Delete io files) ;;
          io_ret (with_bundler a (Some (Commit b)))
      end.

(** The loop of the tests: [storeBlock] on each file in turn, at the
    given clock readings, stopping at the first error
    ([require.NoError]). *)
Fixpoint storeBlocks (a : Archiver) (calls : list (Z * OneBlockFile))
  : IOm W Archiver :=
  match calls with
  | [] => io_ret a
  | (now, f) :: rest =>
      a <- storeBlock a now f (oneBlockFileToBlock f) ;;
      storeBlocks a rest
  end.

End StoreBlock.

Arguments storeBlock {W T _} _ _ _ _ _ _.
Arguments storeBlocks {W T _} _ _ _ _.
Arguments flushBundler {W T _} _ _ _.
Arguments openBundler {W T _} _ _ _ _.
Arguments storeMergeable {W T _} _ _ _ _.
Arguments materialize {W T _} _ _ _.

(** *** The counters of the tests *)

(** The four variables every archiver test counts in, in the order of
    its assertions. *)
Record Counters : Type := mkCounters {
  storedMergedFiles : Z;
  deletedFiles : Z;
  storedMergableOneBlockFiles : Z;
  storedUploadableOneBlockfiles : Z
}.

Definition noCounts : Counters := mkCounters 0 0 0 0.

(** The hooks the tests install. *)
Definition countingIO
    (walk : option (Counters -> Counters * (list OneBlockFile + error)))
  : TestArchiverIO Counters :=
  mkTestIO
    (Some (fun _ _ c =>
       (mkCounters (storedMergedFiles c + 1) (deletedFiles c)
          (storedMergableOneBlockFiles c) (storedUploadableOneBlockfiles c), None)))
    (Some (fun _ c => (c, None)))
    (Some (fun _ _ c =>
       (mkCounters (storedMergedFiles c) (deletedFiles c)
          (storedMergableOneBlockFiles c) (storedUploadableOneBlockfiles c + 1), None)))
    (Some (fun _ _ c =>
       (mkCounters (storedMergedFiles c) (deletedFiles c)
          (storedMergableOneBlockFiles c + 1) (storedUploadableOneBlockfiles c), None)))
    (Some (fun oneBlockFiles c =>
       mkCounters (storedMergedFiles c)
          (deletedFiles c + Z.of_nat (length oneBlockFiles))
          (storedMergableOneBlockFiles c) (storedUploadableOneBlockfiles c)))
    walk.

(** A test body: the counters after the loop, [None] when a call failed. *)
Definition runTest (a : Archiver)
    (walk : option (Counters -> Counters * (list OneBlockFile + error)))
    (calls : list (Z * OneBlockFile)) : option Counters :=
  match storeBlocks (countingIO walk) a calls noCounts with
  | (c, inl _) => Some c
  | (_, inr _) => None
  end.

End Archiver.

(* ===================================================================== *)
(** ** The archiver scenarios of src/unnamed/part_001 *)
(* ===================================================================== *)

Module ArchiverTests.
Import Go Bstream Archiver.

Local Open Scope Z_scope.

(** Days from 1970-01-01 to the given civil date. *)
Definition daysFromCivil (y m d : Z) : Z :=
  let y := if m <=? 2 then y - 1 else y in
  let era := y / 400 in
  let yoe := y - era * 400 in
  let doy := (153 * ((m + 9) mod 12) + 2) / 5 + d - 1 in
  let doe := yoe * 365 + yoe / 4 - yoe / 100 + doy in
  era * 146097 + doe - 719468.

(** The instant [YYYYMMDDTHHMMSS.cc] (UTC), in nanoseconds. *)
Definition stamp (y m d hh mm ss cc : Z) : Z :=
  (((daysFromCivil y m d * 24 + hh) * 60 + mm) * 60 + ss) * 1000000000
  + cc * 10000000.

Definition hour : Z := 3600 * 1000000000.

(** [bundle.MustNewOneBlockFile] on a name
    [<num>-<time>-<id>-<previous_id>-<lib_num>-suffix], field by field. *)
Definition MustNewOneBlockFile (name : string) (num : N) (time : Z)
    (id previousID : string) (libNum : N) : OneBlockFile :=
  mkFile name num time id previousID libNum false.

(** [20210728T105016.cc] *)
Definition t2021 (cc : Z) : Z := stamp 2021 7 28 10 50 16 cc.

Definition f1 := MustNewOneBlockFile
  "0000000001-20210728T105016.01-00000001a-00000000a-0-suffix"
  1 (t2021 1) "00000001a" "00000000a" 0.
Definition f2 := MustNewOneBlockFile
  "0000000002-20210728T105016.02-00000002a-00000001a-0-suffix"
  2 (t2021 2) "00000002a" "00000001a" 0.
Definition f3 := MustNewOneBlockFile
  "0000000003-20210728T105016.03-00000003a-00000002a-0-suffix"
  3 (t2021 3) "00000003a" "00000002a" 0.
Definition f4 := MustNewOneBlockFile
  "0000000004-20210728T105016.06-00000004a-00000003a-2-suffix"
  4 (t2021 6) "00000004a" "00000003a" 2.
Definition f6 := MustNewOneBlockFile
  "0000000006-20210728T105016.08-00000006a-00000004a-2-suffix"
  6 (t2021 8) "00000006a" "00000004a" 2.

(** The five files of the first three tests. *)
Definition srcOneBlockFiles : list OneBlockFile := [f1; f2; f3; f4; f6].

Definition g11 := MustNewOneBlockFile
  "00000000011-20210728T105016.01-000000011a-000000010a-10-suffix"
  11 (t2021 1) "000000011a" "000000010a" 10.
Definition g5 := MustNewOneBlockFile
  "00000000005-20210728T105015.00-0000000005a-000000004a-01-suffix"
  5 (stamp 2021 7 28 10 50 15 0) "0000000005a" "000000004a" 1.
Definition g12 := MustNewOneBlockFile
  "00000000012-20210728T105016.02-000000012a-000000011a-10-suffix"
  12 (t2021 2) "000000012a" "000000011a" 10.
Definition g13 := MustNewOneBlockFile
  "00000000013-20210728T105016.03-000000013a-000000012a-10-suffix"
  13 (t2021 3) "000000013a" "000000012a" 10.
Definition g14 := MustNewOneBlockFile
  "00000000014-20210728T105016.06-000000014a-000000013a-12-suffix"
  14 (t2021 6) "000000014a" "000000013a" 12.
Definition g16 := MustNewOneBlockFile
  "00000000016-20210728T105016.08-000000016a-000000014a-12-suffix"
  16 (t2021 8) "000000016a" "000000014a" 12.
Definition g17 := MustNewOneBlockFile
  "00000000017-20210728T105016.08-000000017a-000000016a-12-suffix"
  17 (t2021 8) "000000017a" "000000016a" 12.

(** The files the batch-mode tests find in the mergeable lane. *)
Definition srcExistingMergeableOneBlockFiles : list OneBlockFile :=
  [ MustNewOneBlockFile
      "0000000001-20210728T105016.01-00000001a-00000000a-0-suffix"
      1 (t2021 1) "00000001a" "00000000a" 0;
    MustNewOneBlockFile
      "0000000002-20210728T105016.02-00000002a-00000001a-1-suffix"
      2 (t2021 2) "00000002a" "00000001a" 1 ].

Definition walkExisting : Counters -> Counters * (list OneBlockFile + error) :=
  fun c => (c, inl srcExistingMergeableOneBlockFiles).

Definition batchFiles : list OneBlockFile :=
  [ MustNewOneBlockFile
      "0000000003-20210728T105016.03-00000003a-00000002a-1-suffix"
      3 (t2021 3) "00000003a" "00000002a" 1;
    f4; f6 ].

Definition multipleBoundariesFiles : list OneBlockFile :=
  [ MustNewOneBlockFile
      "0000000004-20210728T105016.06-00000004a-00000003a-1-suffix"
      4 (t2021 6) "00000004a" "00000003a" 1;
    MustNewOneBlockFile
      "0000000006-20210728T105016.08-00000006a-00000004a-4-suffix"
      6 (t2021 8) "00000006a" "00000004a" 4;
    MustNewOneBlockFile
      "0000000007-20210728T105016.09-00000007a-00000006a-4-suffix"
      7 (t2021 9) "00000007a" "00000006a" 4;
    MustNewOneBlockFile
      "0000000009-20210728T105016.09-00000009a-00000007a-6-suffix"
      9 (t2021 9) "00000009a" "00000007a" 6;
    MustNewOneBlockFile
      "0000000010-20210728T105016.09-00000010a-00000009a-6-suffix"
      10 (t2021 9) "00000010a" "00000009a" 6;
    MustNewOneBlockFile
      "0000000011-20210728T105016.09-00000011a-00000010a-9-suffix"
      11 (t2021 9) "00000011a" "00000010a" 9 ].

(** The files of [TestArchiver_OldBlockToNewBlocksPassThrough]: one block
    of the year 2000, then seven stamped with the second [nowstr] the test
    starts in. *)
Definition oldBlock : OneBlockFile := MustNewOneBlockFile
  "0000000001-20000728T105016.01-00000001a-00000000a-0-suffix"
  1 (stamp 2000 7 28 10 50 16 1) "00000001a" "00000000a" 0.

Definition newBlocks (nowstr : Z) : list OneBlockFile :=
  [ MustNewOneBlockFile "0000000002-<now>.02-00000002a-00000001a-1-suffix"
      2 (nowstr + 2 * 10000000) "00000002a" "00000001a" 1;
    MustNewOneBlockFile "0000000003-<now>.03-00000003a-00000002a-1-suffix"
      3 (nowstr + 3 * 10000000) "00000003a" "00000002a" 1;
    MustNewOneBlockFile "0000000004-<now>.06-00000004a-00000003a-2-suffix"
      4 (nowstr + 6 * 10000000) "00000004a" "00000003a" 2;
    MustNewOneBlockFile "0000000006-<now>.08-00000006a-00000004a-2-suffix"
      6 (nowstr + 8 * 10000000) "00000006a" "00000004a" 2;
    MustNewOneBlockFile "0000000006-<now>.09-00000007a-00000006a-2-suffix"
      6 (nowstr + 9 * 10000000) "00000007a" "00000006a" 2;
    MustNewOneBlockFile "0000000006-<now>.10-00000008a-00000007a-2-suffix"
      6 (nowstr + 10 * 10000000) "00000008a" "00000007a" 2;
    MustNewOneBlockFile "0000000006-<now>.11-00000009a-00000008a-2-suffix"
      6 (nowstr + 11 * 10000000) "00000009a" "00000008a" 2 ].

(** Every call of a test made at the same clock reading. *)
Definition at_ (now : Z) (files : list OneBlockFile) : list (Z * OneBlockFile) :=
  map (fun f => (now, f)) files.

(** [superLongTimeAgo := time.Since(time.Date(2000, 1, 1, 1, 1, 1, 1, time.UTC))] *)
Definition superLongTimeAgo (now : Z) : Z := now - (stamp 2000 1 1 1 1 1 0 + 1).

End ArchiverTests.

(* ===================================================================== *)
(** ** The vocabulary of the properties, and sample inputs *)
(* ===================================================================== *)

Module MonitorDefs.
Import Go Nodeos.

Local Open Scope Z_scope.

(** A pass on which the node runs and [GetInfo] fails. *)
Definition failing (t : tick) : Prop :=
  IsRunning t = true /\ exists e, GetInfo t = inr e.

(** A supervisor with the probe on and a max latency of 5 s, as [Monitor]
    starts. *)
Definition ready : NodeosSuperviser :=
  mkSuperviser (mkOptions true 5000000000) true "" "" "" 0 None None 0 0 [].

(** A pass on which [GetInfo] fails. *)
Definition getInfoFails : tick := mkTick true (inr (Foreign "connection refused")) 0.

(** A head block produced at [headTime], seen on a pass at [now]. *)
Definition headAt (headTime now : Z) : tick :=
  mkTick true (inl (mkInfo "chain" "v2" "v2.0" 42 headTime)) now.

End MonitorDefs.

Module IngestDefs.
Import Go Bstream Effects.

(** The call of the head-block hook, when one is installed. *)
Definition hookCall (installed : bool) (b : Block) : trace :=
  if installed then [HeadBlockUpdate (Number b) (Id b) (Timestamp b)] else [].

(** The stop-block test of [readOneMessage]. *)
Definition stopReached (stopBlock : N) (b : Block) (IsTerminating : bool) : bool :=
  negb (N.eqb stopBlock 0) && N.leb stopBlock (Number b) && negb IsTerminating.

Definition stopRequest (stopBlock : N) (b : Block) (IsTerminating : bool) : trace :=
  if stopReached stopBlock b IsTerminating then [GoShutdown None] else [].

(** The reads of a stretch on which the reader returns blocks only. *)
Definition blocksRead (pre : list (Block * bool)) : list (read_result * bool) :=
  map (fun bt => (inl (fst bt), snd bt)) pre.

(** What the ingest loop does on such a stretch. *)
Definition relayed (p : MindReader.MindReaderPlugin) (pre : list (Block * bool)) : trace :=
  flat_map (fun bt => fst (MindReader.readOneMessage p (inl (fst bt)) (snd bt))) pre.

(** A plugin built with start block 10, a head-block hook, no stop block
    and no block-stream server. *)
Definition hookedPlugin : MindReader.MindReaderPlugin :=
  MindReader.mkPlugin 10 "suffix" 0 100 true false.

(** Block 3 of the archiver scenarios. *)
Definition block3 : Block :=
  mkBlock "00000003a" 3 "00000002a" 1627469416030000000 0.

(** A plugin with stop block 3 and no hook. *)
Definition stopAt3 : MindReader.MindReaderPlugin :=
  MindReader.mkPlugin 0 "suffix" 3 100 false false.

(** The plugin right after [Launch]. *)
Definition launched : MindReader.Running :=
  MindReader.Launch (MindReader.mkRunning false None).

(** The transformer of a reader that yields blocks. *)
Definition idTransformer : Block -> Block + error := fun b => inl b.

End IngestDefs.

Module ConsumerDefs.
Import Go Bstream Effects.

Local Open Scope Z_scope.

(** What [consumeReadFlow] of src/mindreader/mindreader.go does on the
    blocks it receives, before [blocks] is closed. *)
Definition consumed (p : MindReader.MindReaderPlugin) (blocks : list delivery) : trace :=
  flat_map (fun d => fst (MindReader.consumeBlock p d)) blocks.

Section Uploader.

Variable Obj : Type.
Variable p : MindReaderUploader.MindReaderPlugin Obj.

(** The iterations of the loop of src/unnamed/part_001 over a stretch of
    received blocks: what they do, and [dropBlocks] after them. *)
Fixpoint consumeAll (dropBlocks : bool) (blocks : list delivery) : trace * bool :=
  match blocks with
  | [] => ([], dropBlocks)
  | d :: rest =>
      let (tr, drop') := MindReaderUploader.consumeBlock p dropBlocks d in
      let (tr', drop'') := consumeAll drop' rest in
      (tr ++ tr', drop'')
  end.

End Uploader.

Arguments consumeAll {Obj} _ _ _.

(** A store that fails while the plugin is not terminating. *)
Definition storeFails (d : delivery) : bool :=
  failed (storeErr d) && negb (isTerminating d).

(** A plugin of src/mindreader/mindreader.go with a block-stream server. *)
Definition serverPlugin : MindReader.MindReaderPlugin :=
  MindReader.mkPlugin 0 "suffix" 0 100 false true.

(** The plugin of src/unnamed/part_001 with a grace period of 30 s. *)
Definition uploaderPlugin : MindReaderUploader.MindReaderPlugin Block :=
  MindReaderUploader.mkPlugin (MindReaderUploader.NewBlockNumberGate 0) 0
    30000000000 IngestDefs.idTransformer 100 true false.

(** Blocks 1 and 2 of the archiver scenarios. *)
Definition block1 : Block :=
  mkBlock "00000001a" 1 "00000000a" 1627469416010000000 0.
Definition block2 : Block :=
  mkBlock "00000002a" 2 "00000001a" 1627469416020000000 0.

(** A block the archiver fails to store while the plugin is not
    terminating, and a block everything accepts. *)
Definition storeFailure (b : Block) : delivery :=
  mkDelivery b (Some (Foreign "disk full")) None false.
Definition delivered (b : Block) : delivery := mkDelivery b None None false.

(** The delay after which the [select] case [e] fired. *)
Definition firedAfter (e : event) : option Z :=
  match e with
  | ArchiverTerminated t => Some t
  | UploadTimeout t => Some t
  | _ => None
  end.

End ConsumerDefs.

Module ArchiverDefs.
Import Go Bstream Archiver ArchiverTests.

Local Open Scope Z_scope.

(** The counters after [n] more writes to the uploadable lane. *)
Definition uploaded (c : Counters) (n : Z) : Counters :=
  mkCounters (storedMergedFiles c) (deletedFiles c)
    (storedMergableOneBlockFiles c) (storedUploadableOneBlockfiles c + n).

(** The counters after one more write to the mergeable lane. *)
Definition staged (c : Counters) : Counters :=
  mkCounters (storedMergedFiles c) (deletedFiles c)
    (storedMergableOneBlockFiles c + 1) (storedUploadableOneBlockfiles c).

(** A call made on a block no older than the threshold. *)
Definition recent (threshold : Z) (call : Z * OneBlockFile) : Prop :=
  fst call - BlockTime (snd call) <= threshold.

(** The clock reading the scenarios are run at: later than their 2021
    stamps by more than an hour, by less than [superLongTimeAgo]. *)
Definition testDay : Z := stamp 2022 3 15 12 0 0 0.

End ArchiverDefs.

Module Observe.
Import Go Bstream Effects.

(** The blocks sent on [blocks], in the order of the sends. *)
Definition sentBlocks (tr : trace) : list Block :=
  flat_map (fun e => match e with BlocksSend b => [b] | _ => [] end) tr.

(** The blocks handed to [StoreBlock], to [PushBlock], and dropped. *)
Definition storedBlocks (tr : trace) : list Block :=
  flat_map (fun e => match e with StoreBlock b => [b] | _ => [] end) tr.

Definition pushedBlocks (tr : trace) : list Block :=
  flat_map (fun e => match e with PushBlock b => [b] | _ => [] end) tr.

Definition droppedBlocks (tr : trace) : list Block :=
  flat_map (fun e => match e with Dropped b => [b] | _ => [] end) tr.

(** The errors of the [go p.Shutdown(err)] calls, in order. *)
Definition goShutdowns (tr : trace) : list (option error) :=
  flat_map (fun e => match e with GoShutdown err => [err] | _ => [] end) tr.

(** The [go p.Shutdown(err)] calls made for a failed [StoreBlock]. *)
Definition storeFailureRequests (tr : trace) : list (option error) :=
  filter (fun err =>
            match err with
            | Some (Wrapf format _) => String.eqb format "archiver store block failed: %w"
            | _ => false
            end)
         (goShutdowns tr).

(** The errors of the [p.archiver.Shutdown(err)] calls, in order. *)
Definition archiverShutdowns (tr : trace) : list (option error) :=
  flat_map (fun e => match e with ArchiverShutdown err => [err] | _ => [] end) tr.

(** The errors of the [p.Shutdown(err)] calls, in order. *)
Definition shutdowns (tr : trace) : list (option error) :=
  flat_map (fun e => match e with Shutdown err => [err] | _ => [] end) tr.

(** The lines received from [lines], in order. *)
Definition receivedLines (tr : trace) : list string :=
  flat_map (fun e => match e with LinesRecv l => [l] | _ => [] end) tr.

(** How often [blocks] is closed. *)
Definition closings (tr : trace) : nat :=
  length (filter (fun e => match e with BlocksClose => true | _ => false end) tr).

(** The blocks the reader returns before its first error. *)
Fixpoint blocksBeforeError (reads : list (read_result * bool)) : list Block :=
  match reads with
  | (inl b, _) :: rest => b :: blocksBeforeError rest
  | _ => []
  end.

(** The first error the reader returns, if it returns one. *)
Fixpoint firstError (reads : list (read_result * bool)) : option error :=
  match reads with
  | [] => None
  | (inl _, _) :: rest => firstError rest
  | (inr err, _) :: _ => Some err
  end.

(** Whether a channel is there and closed. *)
Definition isClosed (lines : option (chan string)) : bool :=
  match lines with Some c => closed c | None => false end.

(** The characters of a one-block suffix: digits, ASCII letters,
    underscore and hyphen, by their codes. *)
Definition suffixChar (c : ascii) : Prop :=
  let n := N_of_ascii c in
  (48 <= n <= 57 \/ 65 <= n <= 90 \/ n = 95 \/ 97 <= n <= 122 \/ n = 45)%N.

Section Uploader.

Variable Obj : Type.
Variable p : MindReaderUploader.MindReaderPlugin Obj.

(** Whether [Read] returned [io.EOF] itself. *)
Definition readEOF (rd : (Obj + error) * bool) : bool :=
  match fst rd with inr err => is_EOF err | inl _ => false end.

(** The blocks that come out of the transformer and pass the start gate,
    among the reads before the first [io.EOF]. *)
Fixpoint passedBlocks (reads : list ((Obj + error) * bool)) : list Block :=
  match reads with
  | [] => []
  | (inr err, _) :: rest => if is_EOF err then [] else passedBlocks rest
  | (inl obj, _) :: rest =>
      match MindReaderUploader.transformer p obj with
      | inl b =>
          if MindReaderUploader.pass (MindReaderUploader.startGate p) b
          then b :: passedBlocks rest
          else passedBlocks rest
      | inr _ => passedBlocks rest
      end
  end.

(** What the consumer loop of src/unnamed/part_001 does once [blocks] is
    closed. *)
Definition closing (terminated : option Z) (tie : bool) : trace :=
  [ArchiverShutdown None;
   MindReaderUploader.awaitUpload
     (MindReaderUploader.waitUploadCompleteOnShutdown p) terminated tie;
   ReadFlowDone].

(** The errors handed to [p.Shutdown] by the ingest loop: every error
    before the first [io.EOF], a transformer error wrapped. *)
Fixpoint reportedErrors (reads : list ((Obj + error) * bool)) : list (option error) :=
  match reads with
  | [] => []
  | (inr err, _) :: rest =>
      if is_EOF err then [] else Some err :: reportedErrors rest
  | (inl obj, _) :: rest =>
      match MindReaderUploader.transformer p obj with
      | inl _ => reportedErrors rest
      | inr err =>
          Some (Wrapf "unable to transform console read obj to bstream.Block: %w" err)
          :: reportedErrors rest
      end
  end.

End Uploader.

Arguments readEOF {Obj} _.
Arguments passedBlocks {Obj} _ _.
Arguments reportedErrors {Obj} _ _.
Arguments closing {Obj} _ _ _.

(** [consumeReadFlow] of src/mindreader/mindreader.go on a [blocks]
    channel that delivers [blocks] and is never closed: after the last
    block the loop stays parked in its receive. *)
Definition consumeOpen (p : MindReader.MindReaderPlugin) (blocks : list delivery)
  : outcome :=
  Parked (flat_map (fun d => fst (MindReader.consumeBlock p d)) blocks).

(** What the archiver, the block-stream server and the shutter answer for
    the n-th block received. *)
Definition answers : Type := nat -> option error * option error * bool.

Fixpoint deliveriesFrom (n : nat) (ans : answers) (bs : list Block) : list delivery :=
  match bs with
  | [] => []
  | b :: rest =>
      let '(s, pu, t) := ans n in
      mkDelivery b s pu t :: deliveriesFrom (S n) ans rest
  end.

(** The two goroutines of [launch] of src/mindreader/mindreader.go
    together: the consumer receives the blocks the ingest loop sent, and
    sees [blocks] closed when the ingest loop returned.  The value is the
    outcome of the ingest loop and that of the consumer. *)
Definition launch (p : MindReader.MindReaderPlugin)
    (reads : list (read_result * bool)) (lines : option (chan string))
    (ans : answers) (terminated : option Z) : outcome * outcome :=
  let i := MindReader.ingest p reads lines in
  let ds := deliveriesFrom 0 ans (sentBlocks (trace_of i)) in
  (i, if returned i
      then MindReader.consumeReadFlow p ds terminated
      else consumeOpen p ds).

(** [LogLine] called on each line in turn, as long as the calls return. *)
Fixpoint logLines (r : MindReader.Running) (ls : list string) : MindReader.call :=
  match ls with
  | [] => MindReader.Done r
  | l :: rest =>
      match MindReader.LogLine r l with
      | MindReader.Done r' => logLines r' rest
      | other => other
      end
  end.

(** A supervisor pass on which [GetInfo] is called and succeeds. *)
Definition succeeding (t : Nodeos.tick) : bool :=
  Nodeos.IsRunning t && match Nodeos.GetInfo t with inl _ => true | inr _ => false end.

(** A supervisor pass on which [GetInfo] is called and fails. *)
Definition failingb (t : Nodeos.tick) : bool :=
  Nodeos.IsRunning t && match Nodeos.GetInfo t with inl _ => false | inr _ => true end.

(** The number of failing passes at the end of a run, latest first. *)
Fixpoint leadingFailures (latestFirst : list Nodeos.tick) : Z :=
  match latestFirst with
  | [] => 0%Z
  | t :: earlier => if failingb t then (1 + leadingFailures earlier)%Z else 0%Z
  end.


End Observe.

(* ===================================================================== *)
(** * Properties *)
(* ===================================================================== *)

(** ** Suffix validation *)

Module SuffixSpec.
Import Go Suffix.

Lemma MatchString_nonempty (s : string) :
  oneblockSuffixRegexp_MatchString s = true -> s <> "".
Proof. destruct s; simpl; [discriminate | intros _ H; discriminate H]. Qed.

Lemma eqb_empty_false (s : string) : s <> "" -> String.eqb s "" = false.
Proof. intros H. apply String.eqb_neq. exact H. Qed.

(** What the pattern accepts: one character or more, each a digit, an
    ASCII letter, an underscore or a hyphen. *)
Lemma MatchString_spec (s : string) :
  oneblockSuffixRegexp_MatchString s = true <->
  s <> "" /\ all_in suffix_class s = true.
Proof.
  destruct s as [|c s]; simpl.
  - split; [discriminate | intros [H _]; now elim H].
  - split; [intros H; split; [discriminate | exact H] | intros [_ H]; exact H].
Qed.

(** C10, as stated, fails: the two validators do not reject the same
    suffixes. *)
Lemma validators_differ :
  ~ (forall suffix : string,
       failed (MindReader.validateOneBlockSuffix suffix)
       = failed (MindReaderUploader.validateOneBlockSuffix suffix)).
Proof. intros H. specialize (H ""). vm_compute in H. discriminate H. Qed.

(** C10, amended: on every non-empty suffix the validator of
    src/mindreader/mindreader.go and the one of src/unnamed/part_001 return
    the same result; on the empty suffix the first returns the
    "cannot be empty" error and the second returns nil. *)
Theorem validators_agree_off_empty (suffix : string) :
  (suffix <> "" ->
   MindReader.validateOneBlockSuffix suffix
   = MindReaderUploader.validateOneBlockSuffix suffix)
  /\ (suffix = "" ->
      MindReader.validateOneBlockSuffix suffix
      = Some (Errorf "oneblock_suffix cannot be empty" "")
      /\ MindReaderUploader.validateOneBlockSuffix suffix = None).
Proof.
  split.
  - intros Hne.
    unfold MindReader.validateOneBlockSuffix, MindReaderUploader.validateOneBlockSuffix.
    rewrite (eqb_empty_false suffix Hne). simpl.
    destruct (oneblockSuffixRegexp_MatchString suffix); reflexivity.
  - intros ->. split; reflexivity.
Qed.

Lemma validators_agree_off_empty_witness :
  MindReader.validateOneBlockSuffix "mindreader-1_a"
  = MindReaderUploader.validateOneBlockSuffix "mindreader-1_a"
  /\ MindReader.validateOneBlockSuffix "" <> None.
Proof.
  split.
  - apply (proj1 (validators_agree_off_empty "mindreader-1_a")). discriminate.
  - destruct (proj2 (validators_agree_off_empty "") eq_refl) as [H _].
    rewrite H. discriminate.
Defined.

End SuffixSpec.

(** ** The monitor *)

Module MonitorSpec.
Import Go Nodeos MonitorDefs.

Local Open Scope Z_scope.

Lemma int_wrap_small (z : Z) : - 2 ^ 63 <= z < 2 ^ 63 -> int_wrap z = z.
Proof.
  intros H. unfold int_wrap.
  rewrite Z.mod_small by lia. lia.
Qed.

Lemma setReadinessProbeOff_probe (s : NodeosSuperviser) :
  readinessProbe (setReadinessProbeOff s) = false.
Proof. unfold setReadinessProbeOff. destruct (readinessProbe s) eqn:E; simpl; auto. Qed.

Lemma setReadinessProbeOn_probe (s : NodeosSuperviser) :
  readinessProbe (setReadinessProbeOn s) = true.
Proof. unfold setReadinessProbeOn. destruct (readinessProbe s) eqn:E; simpl; auto. Qed.

Lemma setReadinessProbeOff_count (s : NodeosSuperviser) :
  getInfoFailureCount (setReadinessProbeOff s) = getInfoFailureCount s.
Proof. unfold setReadinessProbeOff. destruct (readinessProbe s); reflexivity. Qed.

Lemma setReadinessProbeOn_count (s : NodeosSuperviser) :
  getInfoFailureCount (setReadinessProbeOn s) = getInfoFailureCount s.
Proof. unfold setReadinessProbeOn. destruct (readinessProbe s); reflexivity. Qed.

(** One failing pass: the counter goes up by one and the probe is cleared
    when the new count exceeds 5. *)
Lemma failing_pass (s : NodeosSuperviser) (t : tick) :
  failing t ->
  0 <= getInfoFailureCount s < 2 ^ 63 - 1 ->
  getInfoFailureCount (monitorPass s t) = getInfoFailureCount s + 1
  /\ readinessProbe (monitorPass s t)
     = readinessProbe s && (getInfoFailureCount s + 1 <=? 5).
Proof.
  intros [Hrun [e He]] Hc. unfold monitorPass. rewrite Hrun, He. simpl.
  rewrite int_wrap_small by lia.
  destruct (5 <? getInfoFailureCount s + 1) eqn:E.
  - rewrite setReadinessProbeOff_probe, setReadinessProbeOff_count. simpl.
    apply Z.ltb_lt in E.
    replace (getInfoFailureCount s + 1 <=? 5) with false
      by (symmetry; apply Z.leb_gt; lia).
    rewrite andb_false_r. auto.
  - simpl. apply Z.ltb_ge in E.
    replace (getInfoFailureCount s + 1 <=? 5) with true
      by (symmetry; apply Z.leb_le; lia).
    rewrite andb_true_r. auto.
Qed.

(** A run of failing passes, from any count. *)
Lemma failing_run (ticks : list tick) :
  Forall failing ticks ->
  forall s : NodeosSuperviser,
    0 <= getInfoFailureCount s ->
    getInfoFailureCount s + Z.of_nat (length ticks) < 2 ^ 63 ->
    let s' := fold_left monitorPass ticks s in
    getInfoFailureCount s' = getInfoFailureCount s + Z.of_nat (length ticks)
    /\ readinessProbe s'
       = match ticks with
         | [] => readinessProbe s
         | _ => readinessProbe s
                && (getInfoFailureCount s + Z.of_nat (length ticks) <=? 5)
         end.
Proof.
  induction 1 as [|t ticks Ht Hts IH]; intros s H0 Hb; cbn zeta.
  - simpl. split; [lia | reflexivity].
  - cbn [fold_left]. cbn [length] in *. rewrite Nat2Z.inj_succ in *.
    destruct (failing_pass s t Ht ltac:(lia)) as [Hc Hp].
    destruct (IH (monitorPass s t) ltac:(lia) ltac:(lia)) as [Hc' Hp'].
    split; [lia |].
    rewrite Hp'. destruct ticks as [|t' ticks'].
    + simpl. rewrite Hp. reflexivity.
    + rewrite Hp, Hc. rewrite <- andb_assoc. f_equal.
      set (n := Z.of_nat (length (t' :: ticks'))) in *.
      assert (0 <= n) by (subst n; lia).
      destruct (getInfoFailureCount s + 1 + n <=? 5) eqn:E1.
      * apply Z.leb_le in E1.
        replace (getInfoFailureCount s + 1 <=? 5) with true
          by (symmetry; apply Z.leb_le; lia).
        replace (getInfoFailureCount s + Z.succ n <=? 5) with true
          by (symmetry; apply Z.leb_le; lia).
        reflexivity.
      * apply Z.leb_gt in E1.
        replace (getInfoFailureCount s + Z.succ n <=? 5) with false
          by (symmetry; apply Z.leb_gt; lia).
        apply andb_false_r.
Qed.

(** C8, as stated, fails: when the count of consecutive failures reaches 5
    the probe is still on. *)
Lemma probe_on_at_5_failures :
  getInfoFailureCount (Monitor ready (repeat getInfoFails 5)) = 5
  /\ readinessProbe (Monitor ready (repeat getInfoFails 5)) = true
  /\ readinessProbe (Monitor ready (repeat getInfoFails 6)) = false.
Proof. vm_compute. repeat split. Qed.

(** C8, amended: after [n] consecutive failing passes the counter is [n]
    and the probe is cleared exactly when [n] exceeds 5, that is from the
    sixth failure on; a pass with the node not running, and a pass with a
    successful [GetInfo], reset the counter to zero. *)
Theorem readiness_cleared_above_5_failures :
  (forall (s : NodeosSuperviser) (ticks : list tick),
      getInfoFailureCount s = 0 ->
      Forall failing ticks ->
      Z.of_nat (length ticks) < 2 ^ 63 ->
      getInfoFailureCount (fold_left monitorPass ticks s) = Z.of_nat (length ticks)
      /\ readinessProbe (fold_left monitorPass ticks s)
         = readinessProbe s && (Z.of_nat (length ticks) <=? 5))
  /\ (forall (s : NodeosSuperviser) (t : tick),
         IsRunning t = false ->
         getInfoFailureCount (monitorPass s t) = 0
         /\ readinessProbe (monitorPass s t) = readinessProbe s)
  /\ (forall (s : NodeosSuperviser) (t : tick) (info : InfoResp),
         IsRunning t = true -> GetInfo t = inl info ->
         getInfoFailureCount (monitorPass s t) = 0).
Proof.
  split; [| split].
  - intros s ticks H0 Hf Hb.
    destruct (failing_run ticks Hf s ltac:(lia) ltac:(lia)) as [Hc Hp].
    rewrite H0 in *. split; [lia |].
    rewrite Hp. destruct ticks; [simpl; now rewrite andb_true_r | reflexivity].
  - intros s t Hrun. unfold monitorPass. rewrite Hrun. simpl. auto.
  - intros s t info Hrun Hinfo. unfold monitorPass. rewrite Hrun, Hinfo. simpl.
    match goal with
    | |- context [if ?c then _ else _] => destruct c
    end; [rewrite setReadinessProbeOn_count |]; reflexivity.
Qed.

Lemma readiness_cleared_above_5_failures_witness :
  readinessProbe (fold_left monitorPass (repeat getInfoFails 6) ready) = false
  /\ getInfoFailureCount (monitorPass ready (mkTick false (inr EOF) 0)) = 0
  /\ getInfoFailureCount (monitorPass ready (headAt 0 1)) = 0.
Proof.
  destruct readiness_cleared_above_5_failures as [Hrun [Hoff Hok]].
  split; [| split].
  - destruct (Hrun ready (repeat getInfoFails 6)) as [_ Hp].
    + reflexivity.
    + repeat constructor; exists (Foreign "connection refused"); reflexivity.
    + vm_compute. reflexivity.
    + rewrite Hp. reflexivity.
  - apply (Hoff ready (mkTick false (inr EOF) 0)). reflexivity.
  - apply (Hok ready (headAt 0 1) (mkInfo "chain" "v2" "v2.0" 42 0)); reflexivity.
Defined.

(** C9, as stated, fails: with a head block exactly [ReadinessMaxLatency]
    old the probe is not set. *)
Lemma probe_not_set_at_max_latency :
  readinessProbe
    (monitorPass (setReadinessProbeOff ready) (headAt 1000000000 6000000000))
  = false.
Proof. vm_compute. reflexivity. Qed.

(** C9, amended: on a successful [GetInfo] the probe is set on when the
    configured max latency is zero or the time since the head block is
    strictly below it; otherwise the probe keeps its value. *)
Theorem readiness_set_below_max_latency
    (s : NodeosSuperviser) (t : tick) (info : InfoResp) :
  IsRunning t = true ->
  GetInfo t = inl info ->
  readinessProbe (monitorPass s t)
  = if (ReadinessMaxLatency (options s) =? 0)
       || (now t - HeadBlockTime info <? ReadinessMaxLatency (options s))
    then true
    else readinessProbe s.
Proof.
  intros Hrun Hinfo. unfold monitorPass. rewrite Hrun, Hinfo. simpl.
  match goal with
  | |- context [if ?c then _ else _] => destruct c
  end; [apply setReadinessProbeOn_probe | reflexivity].
Qed.

Lemma readiness_set_below_max_latency_witness :
  readinessProbe
    (monitorPass (setReadinessProbeOff ready) (headAt 1000000000 5999999999))
  = true.
Proof.
  rewrite (readiness_set_below_max_latency _ _ (mkInfo "chain" "v2" "v2.0" 42 1000000000));
    reflexivity.
Defined.

End MonitorSpec.

(** ** Traces *)

Module EffectsFacts.
Import Effects.

Lemma after_after (t1 t2 : trace) (o : outcome) :
  after t1 (after t2 o) = after (t1 ++ t2) o.
Proof. destruct o; simpl; now rewrite app_assoc. Qed.

Lemma after_nil (o : outcome) : after [] o = o.
Proof. destruct o; reflexivity. Qed.

End EffectsFacts.

(** ** The ingest loop, [LogLine] and [Stop] *)

Module IngestSpec.
Import Go Bstream Effects EffectsFacts IngestDefs.

Lemma stopReached_iff (stopBlock : N) (b : Block) (IsTerminating : bool) :
  stopReached stopBlock b IsTerminating = true <->
  stopBlock <> 0%N /\ (stopBlock <= Number b)%N /\ IsTerminating = false.
Proof.
  unfold stopReached. rewrite !andb_true_iff, negb_true_iff, negb_true_iff.
  rewrite N.eqb_neq, N.leb_le. tauto.
Qed.

(** [readOneMessage] of src/mindreader/mindreader.go on a block. *)
Lemma readOneMessage_block (p : MindReader.MindReaderPlugin) (b : Block) (t : bool) :
  MindReader.readOneMessage p (inl b) t
  = (hookCall (MindReader.headBlockUpdateFunc p) b
       ++ BlocksSend b :: stopRequest (MindReader.stopBlock p) b t, None).
Proof.
  unfold MindReader.readOneMessage, hookCall, stopRequest, stopReached.
  destruct (MindReader.headBlockUpdateFunc p);
    destruct (negb (N.eqb (MindReader.stopBlock p) 0)
              && N.leb (MindReader.stopBlock p) (Number b) && negb t);
    reflexivity.
Qed.

Lemma ingest_blocks (p : MindReader.MindReaderPlugin) (pre : list (Block * bool))
    (rest : list (read_result * bool)) (lines : option (chan string)) :
  MindReader.ingest p (blocksRead pre ++ rest) lines
  = after (relayed p pre) (MindReader.ingest p rest lines).
Proof.
  induction pre as [|[b t] pre IH].
  - simpl. now rewrite after_nil.
  - change (blocksRead ((b, t) :: pre) ++ rest)
      with ((inl b, t) :: (blocksRead pre ++ rest)).
    change (relayed p ((b, t) :: pre))
      with (fst (MindReader.readOneMessage p (inl b) t) ++ relayed p pre).
    cbn -[MindReader.readOneMessage blocksRead relayed].
    rewrite readOneMessage_block, IH, after_after. reflexivity.
Qed.

(** While [lines] stays open the error path does not return: the loop
    stays in [drainMessages] and [blocks] is not closed. *)
Lemma ingest_parked_while_lines_open (p : MindReader.MindReaderPlugin)
    (pre : list (Block * bool)) (err : error) (t : bool)
    (rest : list (read_result * bool)) (c : chan string) :
  is_EOF err = false -> closed c = false ->
  MindReader.ingest p (blocksRead pre ++ (inr err, t) :: rest) (Some c)
  = Parked (relayed p pre ++ Shutdown (Some err) :: map LinesRecv (buf c)).
Proof.
  intros He Hc. rewrite ingest_blocks. simpl. rewrite He, Hc. simpl. reflexivity.
Qed.

(** C3, as stated, fails: the exit on [io.EOF] closes [blocks] with lines
    still queued. *)
Lemma EOF_exit_does_not_drain :
  ~ (forall (p : MindReader.MindReaderPlugin) (reads : list (read_result * bool))
            (c : chan string) (tr : trace),
        MindReader.ingest p reads (Some c) = Returns tr ->
        forall line, In line (buf c) -> In (LinesRecv line) tr).
Proof.
  intros H.
  specialize (H hookedPlugin [(inr EOF, false)] (mkChan 10000 ["queued"] true)
                [BlocksClose] eq_refl "queued" (or_introl eq_refl)).
  simpl in H. destruct H as [H | []]. discriminate H.
Qed.

(** C3, amended: on an error of [readOneMessage] other than [io.EOF] the
    ingest loop requests shutdown with that error, receives every line
    queued on [lines] and, [lines] being closed, closes [blocks] and
    returns; on [io.EOF] it closes [blocks] and returns without requesting
    shutdown and without draining [lines]. *)
Theorem ingest_exit_paths (p : MindReader.MindReaderPlugin)
    (pre : list (Block * bool)) (err : error) (t : bool)
    (rest : list (read_result * bool)) (lines : option (chan string)) :
  (is_EOF err = false ->
   forall c, lines = Some c -> closed c = true ->
     MindReader.ingest p (blocksRead pre ++ (inr err, t) :: rest) lines
     = Returns (relayed p pre
                ++ Shutdown (Some err) :: map LinesRecv (buf c) ++ [BlocksClose]))
  /\ (err = EOF ->
      MindReader.ingest p (blocksRead pre ++ (inr err, t) :: rest) lines
      = Returns (relayed p pre ++ [BlocksClose])).
Proof.
  split.
  - intros He c -> Hc. rewrite ingest_blocks. simpl. rewrite He, Hc. reflexivity.
  - intros ->. rewrite ingest_blocks. reflexivity.
Qed.

Lemma ingest_exit_paths_witness :
  MindReader.ingest hookedPlugin
    [(inl block3, false); (inr (Foreign "read failed"), false)]
    (Some (mkChan 10000 ["a"; "b"] true))
  = Returns [HeadBlockUpdate 3 "00000003a" 1627469416030000000; BlocksSend block3;
             Shutdown (Some (Foreign "read failed"));
             LinesRecv "a"; LinesRecv "b"; BlocksClose]
  /\ MindReader.ingest hookedPlugin [(inl block3, false); (inr EOF, false)]
       (Some (mkChan 10000 ["a"; "b"] true))
     = Returns [HeadBlockUpdate 3 "00000003a" 1627469416030000000; BlocksSend block3;
                BlocksClose].
Proof.
  split.
  - apply (proj1 (ingest_exit_paths hookedPlugin [(block3, false)]
                    (Foreign "read failed") false []
                    (Some (mkChan 10000 ["a"; "b"] true)))
             eq_refl (mkChan 10000 ["a"; "b"] true) eq_refl eq_refl).
  - apply (proj2 (ingest_exit_paths hookedPlugin [(block3, false)] EOF false []
                    (Some (mkChan 10000 ["a"; "b"] true)))
             eq_refl).
Defined.

(** C6: for every block [readOneMessage] reads, the block is sent on
    [blocks] first, after the head-block hook if one is installed; then
    [go p.Shutdown(nil)] is issued when [stopBlock] is non-zero, the block
    number is at least [stopBlock] and the plugin is not terminating, and
    only then.  The stop block itself is on [blocks] before shutdown is
    requested. *)
Theorem stop_block_sent_before_shutdown
    (p : MindReader.MindReaderPlugin) (b : Block) (IsTerminating : bool) :
  exists tail : trace,
    MindReader.readOneMessage p (inl b) IsTerminating
    = (hookCall (MindReader.headBlockUpdateFunc p) b ++ BlocksSend b :: tail, None)
    /\ (MindReader.stopBlock p <> 0%N
        /\ (MindReader.stopBlock p <= Number b)%N
        /\ IsTerminating = false ->
        tail = [GoShutdown None])
    /\ (~ (MindReader.stopBlock p <> 0%N
           /\ (MindReader.stopBlock p <= Number b)%N
           /\ IsTerminating = false) ->
        tail = []).
Proof.
  exists (stopRequest (MindReader.stopBlock p) b IsTerminating).
  split; [apply readOneMessage_block |].
  unfold stopRequest.
  destruct (stopReached (MindReader.stopBlock p) b IsTerminating) eqn:E.
  - split; [reflexivity |]. intros Hn. elim Hn. now apply stopReached_iff.
  - split; [| reflexivity]. intros Hc. apply stopReached_iff in Hc. congruence.
Qed.

Lemma stop_block_sent_before_shutdown_witness :
  MindReader.readOneMessage stopAt3 (inl block3) false
  = ([BlocksSend block3; GoShutdown None], None)
  /\ MindReader.readOneMessage stopAt3 (inl block3) true
     = ([BlocksSend block3], None).
Proof.
  split.
  - destruct (stop_block_sent_before_shutdown stopAt3 block3 false)
      as [tail [Heq [Hstop _]]].
    rewrite Heq, Hstop; [reflexivity |].
    repeat split; [discriminate | vm_compute; discriminate].
  - destruct (stop_block_sent_before_shutdown stopAt3 block3 true)
      as [tail [Heq [_ Hno]]].
    rewrite Heq, Hno; [reflexivity |].
    intros [_ [_ H]]. discriminate H.
Defined.

(** [LogLine] returns only after its send: the line is then the last of
    the queue. *)
Lemma LogLine_done_enqueued (r r' : MindReader.Running) (line : string) :
  MindReader.terminating r = false ->
  MindReader.LogLine r line = MindReader.Done r' ->
  exists c, MindReader.lines r = Some c
            /\ r' = MindReader.mkRunning false
                      (Some (mkChan (cap c) (buf c ++ [line]) (closed c))).
Proof.
  unfold MindReader.LogLine, send. intros Ht. rewrite Ht.
  destruct (MindReader.lines r) as [c|]; [| discriminate].
  destruct (closed c) eqn:Hc; [discriminate |].
  destruct (N.ltb (N.of_nat (length (buf c))) (cap c)); [| discriminate].
  intros H. injection H as <-. exists c. rewrite Hc. split; reflexivity.
Qed.

(** After [Stop] the flag is up, so [LogLine] does not touch the closed
    channel. *)
Lemma LogLine_after_Stop (r r' : MindReader.Running) (line : string) :
  MindReader.lines r <> None ->
  MindReader.Stop r = MindReader.Done r' ->
  MindReader.LogLine r' line = MindReader.Done r'.
Proof.
  unfold MindReader.Stop. destruct (MindReader.lines r) as [c|]; [| congruence].
  intros _. destruct (closed c); [discriminate |].
  intros H. injection H as <-. reflexivity.
Qed.

(** C7: once the terminating flag is set, [LogLine] returns at once and
    leaves [lines] as it is, whatever the state of the channel (nil, full
    or closed): nothing is sent and the call does not block.  Before the
    flag is set, [LogLine] sends the line on [lines]: on the launched, open
    channel with room the line is queued behind the lines already there,
    and whenever the call returns the line has been queued. *)
Theorem LogLine_drops_once_terminating (r : MindReader.Running) (line : string) :
  (MindReader.terminating r = true -> MindReader.LogLine r line = MindReader.Done r)
  /\ (MindReader.terminating r = false ->
      forall c, MindReader.lines r = Some c -> closed c = false ->
        (N.of_nat (length (buf c)) < cap c)%N ->
        MindReader.LogLine r line
        = MindReader.Done
            (MindReader.mkRunning false (Some (mkChan (cap c) (buf c ++ [line]) false))))
  /\ (MindReader.terminating r = false ->
      forall r', MindReader.LogLine r line = MindReader.Done r' ->
        exists c, MindReader.lines r = Some c
                  /\ MindReader.lines r' = Some (mkChan (cap c) (buf c ++ [line]) (closed c))).
Proof.
  split; [| split].
  - intros Ht. unfold MindReader.LogLine. now rewrite Ht.
  - intros Ht c Hl Hc Hroom. unfold MindReader.LogLine, send.
    rewrite Ht, Hl, Hc. apply N.ltb_lt in Hroom. rewrite Hroom. reflexivity.
  - intros Ht r' Hdone.
    destruct (LogLine_done_enqueued r r' line Ht Hdone) as [c [Hl ->]].
    exists c. split; [exact Hl | reflexivity].
Qed.

Lemma LogLine_drops_once_terminating_witness :
  MindReader.LogLine (MindReader.mkRunning true (Some (mkChan 1 ["x"] true))) "y"
  = MindReader.Done (MindReader.mkRunning true (Some (mkChan 1 ["x"] true)))
  /\ MindReader.LogLine launched "y"
     = MindReader.Done (MindReader.mkRunning false (Some (mkChan 10000 ["y"] false))).
Proof.
  split.
  - apply (proj1 (LogLine_drops_once_terminating
                    (MindReader.mkRunning true (Some (mkChan 1 ["x"] true))) "y")).
    reflexivity.
  - apply (proj1 (proj2 (LogLine_drops_once_terminating launched "y"))
             eq_refl (mkChan 10000 [] false) eq_refl eq_refl).
    reflexivity.
Defined.

(** [readOneMessage] of src/unnamed/part_001 on an object that transforms
    into a block: nothing happens unless the gate lets the block pass. *)
Lemma readOneMessage_gate (Obj : Type) (p : MindReaderUploader.MindReaderPlugin Obj)
    (obj : Obj) (b : Block) (IsTerminating : bool) :
  MindReaderUploader.transformer p obj = inl b ->
  MindReaderUploader.readOneMessage p (inl obj) IsTerminating
  = if MindReaderUploader.pass (MindReaderUploader.startGate p) b
    then (hookCall (MindReaderUploader.headBlockUpdateFunc p) b
            ++ BlocksSend b
               :: stopRequest (MindReaderUploader.stopBlock p) b IsTerminating,
          None)
    else ([], None).
Proof.
  intros Htr. unfold MindReaderUploader.readOneMessage. rewrite Htr.
  destruct (MindReaderUploader.pass (MindReaderUploader.startGate p) b);
    [| reflexivity].
  unfold hookCall, stopRequest, stopReached. cbn [negb].
  destruct (MindReaderUploader.headBlockUpdateFunc p);
    destruct (negb (N.eqb (MindReaderUploader.stopBlock p) 0)
              && N.leb (MindReaderUploader.stopBlock p) (Number b)
              && negb IsTerminating);
    reflexivity.
Qed.

(** C5, as stated, fails on src/mindreader/mindreader.go: a plugin built
    with start block 10 invokes the hook on block 3 and sends it on
    [blocks]. *)
Lemma block_below_start_is_sent :
  exists p : MindReader.MindReaderPlugin,
    MindReader.NewMindReaderPlugin 10 0 100 true "suffix" false = inl p
    /\ MindReader.readOneMessage p (inl block3) false
       = ([HeadBlockUpdate 3 "00000003a" 1627469416030000000; BlocksSend block3], None).
Proof. eexists. split; reflexivity. Qed.

(** C5, amended: in the ingest loop of src/unnamed/part_001 a block whose
    number is below the start block is discarded by the start gate, neither
    sent on [blocks] nor shown to the head-block hook, and a block at or
    above it gets the hook call, if one is installed, and is sent.
    src/mindreader/mindreader.go has no start gate: there every block read
    is shown to the hook and sent, whatever its number. *)
Theorem start_gate_discards_below_start
    (Obj : Type) (tr : Obj -> Block + error)
    (startBlockNum stopBlockNum channelCapacity : N) (hook : bool) (wait : Z)
    (suffix : string) (server : bool)
    (p : MindReaderUploader.MindReaderPlugin Obj)
    (obj : Obj) (b : Block) (IsTerminating : bool) :
  MindReaderUploader.NewMindReaderPlugin tr startBlockNum stopBlockNum
    channelCapacity hook wait suffix server = inl p ->
  tr obj = inl b ->
  ((Number b < startBlockNum)%N ->
   MindReaderUploader.readOneMessage p (inl obj) IsTerminating = ([], None))
  /\ ((startBlockNum <= Number b)%N ->
      MindReaderUploader.readOneMessage p (inl obj) IsTerminating
      = (hookCall hook b ++ BlocksSend b :: stopRequest stopBlockNum b IsTerminating,
         None))
  /\ (forall q : MindReader.MindReaderPlugin,
         MindReader.readOneMessage q (inl b) IsTerminating
         = (hookCall (MindReader.headBlockUpdateFunc q) b
              ++ BlocksSend b :: stopRequest (MindReader.stopBlock q) b IsTerminating,
            None)).
Proof.
  unfold MindReaderUploader.NewMindReaderPlugin.
  destruct (MindReaderUploader.validateOneBlockSuffix suffix); [discriminate |].
  intros Hp Htr. injection Hp as <-.
  split; [| split].
  - intros Hlt. rewrite (readOneMessage_gate Obj _ obj b IsTerminating); [| exact Htr].
    unfold MindReaderUploader.pass. cbn.
    apply N.leb_gt in Hlt. rewrite Hlt. reflexivity.
  - intros Hle. rewrite (readOneMessage_gate Obj _ obj b IsTerminating); [| exact Htr].
    unfold MindReaderUploader.pass. cbn.
    apply N.leb_le in Hle. rewrite Hle. reflexivity.
  - intros q. apply readOneMessage_block.
Qed.

Lemma start_gate_discards_below_start_witness :
  exists p : MindReaderUploader.MindReaderPlugin Block,
    MindReaderUploader.readOneMessage p (inl block3) false = ([], None).
Proof.
  eexists.
  apply (proj1 (start_gate_discards_below_start Block idTransformer 10 0 100 true 0
                  "suffix" false _ block3 block3 false eq_refl eq_refl)).
  reflexivity.
Defined.

End IngestSpec.

(** ** The consumer loop *)

Module ConsumerSpec.
Import Go Bstream Effects IngestDefs ConsumerDefs.

Local Open Scope Z_scope.

Lemma consumeReadFlow_consumed (p : MindReader.MindReaderPlugin)
    (blocks : list delivery) (terminated : option Z) :
  MindReader.consumeReadFlow p blocks terminated
  = after (consumed p blocks) (MindReader.consumeReadFlow p [] terminated).
Proof.
  induction blocks as [|d blocks IH].
  - simpl. destruct terminated; reflexivity.
  - change (MindReader.consumeReadFlow p (d :: blocks) terminated)
      with (after (fst (MindReader.consumeBlock p d))
              (MindReader.consumeReadFlow p blocks terminated)).
    rewrite IH, EffectsFacts.after_after. reflexivity.
Qed.

(** Every iteration starts with the call of the archiver. *)
Lemma consumeBlock_stores (p : MindReader.MindReaderPlugin) (d : delivery) :
  exists tail, fst (MindReader.consumeBlock p d) = StoreBlock (block d) :: tail.
Proof.
  unfold MindReader.consumeBlock.
  destruct (storeErr d), (isTerminating d), (MindReader.blockStreamServer p),
    (pushErr d); simpl; eexists; reflexivity.
Qed.

Section Uploader.

Variable Obj : Type.
Variable p : MindReaderUploader.MindReaderPlugin Obj.

Lemma consumeLoop_app (pre post : list delivery) (dropBlocks : bool)
    (terminated : option Z) (tie : bool) :
  MindReaderUploader.consumeLoop p dropBlocks (pre ++ post) terminated tie
  = after (fst (consumeAll p dropBlocks pre))
      (MindReaderUploader.consumeLoop p (snd (consumeAll p dropBlocks pre)) post
         terminated tie).
Proof.
  revert dropBlocks. induction pre as [|d pre IH]; intros dropBlocks.
  - simpl. now rewrite EffectsFacts.after_nil.
  - cbn [app MindReaderUploader.consumeLoop consumeAll].
    destruct (MindReaderUploader.consumeBlock p dropBlocks d) as [tr drop'].
    rewrite IH. destruct (consumeAll p drop' pre) as [tr' drop''].
    cbn [fst snd]. now rewrite EffectsFacts.after_after.
Qed.

(** With the flag set, the loop only drops. *)
Lemma consumeLoop_dropping (post : list delivery) (terminated : option Z) (tie : bool) :
  MindReaderUploader.consumeLoop p true post terminated tie
  = Returns (map (fun d => Dropped (block d)) post
             ++ [ArchiverShutdown None;
                 MindReaderUploader.awaitUpload
                   (MindReaderUploader.waitUploadCompleteOnShutdown p) terminated tie;
                 ReadFlowDone]).
Proof.
  induction post as [|d post IH].
  - reflexivity.
  - cbn [MindReaderUploader.consumeLoop]. unfold MindReaderUploader.consumeBlock.
    cbn. rewrite IH. reflexivity.
Qed.

(** The flag is raised by such a store only. *)
Lemma consumeBlock_keeps_flag_down (d : delivery) :
  storeFails d = false ->
  snd (MindReaderUploader.consumeBlock p false d) = false.
Proof.
  unfold storeFails, MindReaderUploader.consumeBlock.
  destruct (storeErr d), (isTerminating d),
    (MindReaderUploader.blockStreamServer p), (pushErr d);
    simpl; congruence.
Qed.

Lemma consumeAll_keeps_flag_down (pre : list delivery) :
  forallb (fun d => negb (storeFails d)) pre = true ->
  snd (consumeAll p false pre) = false.
Proof.
  induction pre as [|d pre IH]; [reflexivity |].
  cbn [forallb]. rewrite andb_true_iff, negb_true_iff. intros [Hd Hpre].
  cbn [consumeAll].
  pose proof (consumeBlock_keeps_flag_down d Hd) as Hk.
  destruct (MindReaderUploader.consumeBlock p false d) as [tr drop'].
  cbn [snd] in Hk. subst drop'.
  specialize (IH Hpre). destruct (consumeAll p false pre) as [tr' drop''].
  exact IH.
Qed.

Lemma consumeBlock_store_failure (x : delivery) (err : error) :
  storeErr x = Some err -> isTerminating x = false ->
  MindReaderUploader.consumeBlock p false x
  = ([StoreBlock (block x);
      GoShutdown (Some (Wrapf "archiver store block failed: %w" err))], true).
Proof.
  intros He Ht. unfold MindReaderUploader.consumeBlock. rewrite He, Ht.
  reflexivity.
Qed.

(** The [select] fires within the grace period. *)
Lemma awaitUpload_bounded (terminated : option Z) (tie : bool) :
  let wait := MindReaderUploader.waitUploadCompleteOnShutdown p in
  exists delay,
    0 <= delay <= Z.max 0 wait
    /\ (MindReaderUploader.awaitUpload wait terminated tie = ArchiverTerminated delay
        \/ MindReaderUploader.awaitUpload wait terminated tie = UploadTimeout delay).
Proof.
  cbn zeta. unfold MindReaderUploader.awaitUpload.
  set (wait := MindReaderUploader.waitUploadCompleteOnShutdown p).
  destruct terminated as [t|].
  - destruct (Z.ltb_spec (Z.max 0 t) (Z.max 0 wait)).
    + exists (Z.max 0 t). split; [lia | now left].
    + destruct (Z.ltb_spec (Z.max 0 wait) (Z.max 0 t)).
      * exists (Z.max 0 wait). split; [lia | now right].
      * destruct tie.
        -- exists (Z.max 0 wait). split; [lia | now right].
        -- exists (Z.max 0 t). split; [lia | now left].
  - exists (Z.max 0 wait). split; [lia | now right].
Qed.

End Uploader.

(** C1, as stated, fails on src/mindreader/mindreader.go: when the
    archiver never signals terminated the consumer loop does not return. *)
Lemma consumer_waits_without_bound :
  MindReader.consumeReadFlow serverPlugin [delivered block1] None
  = Parked [StoreBlock block1; PushBlock block1; ArchiverShutdown None]
  /\ returned (MindReader.consumeReadFlow serverPlugin [delivered block1] None) = false.
Proof. split; reflexivity. Qed.

(** C1, amended: in src/unnamed/part_001, once [blocks] is closed the
    consumer loop shuts the archiver down, waits for its terminated signal
    for at most [waitUploadCompleteOnShutdown] and returns; when the
    archiver never signals it returns on the timer, after exactly that
    period.  In src/mindreader/mindreader.go the wait has no bound: the
    loop returns when the archiver signals terminated and stays parked
    when it never does. *)
Theorem consumer_exits_within_grace_period :
  (forall (Obj : Type) (p : MindReaderUploader.MindReaderPlugin Obj)
          (blocks : list delivery) (terminated : option Z) (tie : bool),
      exists fired delay,
        MindReaderUploader.consumeReadFlow p blocks terminated tie
        = Returns (fst (consumeAll p false blocks)
                   ++ [ArchiverShutdown None; fired; ReadFlowDone])
        /\ firedAfter fired = Some delay
        /\ 0 <= delay <= Z.max 0 (MindReaderUploader.waitUploadCompleteOnShutdown p)
        /\ (terminated = None ->
            fired = UploadTimeout
                      (Z.max 0 (MindReaderUploader.waitUploadCompleteOnShutdown p))))
  /\ (forall (p : MindReader.MindReaderPlugin) (blocks : list delivery),
         MindReader.consumeReadFlow p blocks None
         = Parked (consumed p blocks ++ [ArchiverShutdown None]))
  /\ (forall (p : MindReader.MindReaderPlugin) (blocks : list delivery) (t : Z),
         MindReader.consumeReadFlow p blocks (Some t)
         = Returns (consumed p blocks
                    ++ [ArchiverShutdown None; ArchiverTerminated (Z.max 0 t);
                        ReadFlowDone])).
Proof.
  split; [| split].
  - intros Obj p blocks terminated tie.
    unfold MindReaderUploader.consumeReadFlow.
    pose proof (consumeLoop_app Obj p blocks [] false terminated tie) as Happ.
    rewrite app_nil_r in Happ. rewrite Happ. clear Happ.
    destruct (awaitUpload_bounded Obj p terminated tie) as [delay [Hb Hf]].
    cbn zeta in Hf.
    exists (MindReaderUploader.awaitUpload
              (MindReaderUploader.waitUploadCompleteOnShutdown p) terminated tie),
           delay.
    split; [reflexivity |]. split; [| split].
    + destruct Hf as [-> | ->]; reflexivity.
    + exact Hb.
    + intros ->. reflexivity.
  - intros p blocks. rewrite consumeReadFlow_consumed. reflexivity.
  - intros p blocks t. rewrite consumeReadFlow_consumed. reflexivity.
Qed.

Lemma consumer_exits_within_grace_period_witness :
  MindReaderUploader.consumeReadFlow uploaderPlugin [delivered block1] None false
  = Returns [StoreBlock block1; PushBlock block1; ArchiverShutdown None;
             UploadTimeout 30000000000; ReadFlowDone].
Proof.
  destruct (proj1 consumer_exits_within_grace_period Block uploaderPlugin
              [delivered block1] None false) as [fired [delay [Heq [_ [_ Hnever]]]]].
  rewrite Heq, (Hnever eq_refl). reflexivity.
Defined.

(** C2, as stated, fails on src/mindreader/mindreader.go: the block that
    follows a failed store is handed to the archiver and to the
    block-stream server. *)
Lemma block_after_failure_still_stored :
  MindReader.consumeReadFlow serverPlugin [storeFailure block1; delivered block2] (Some 0)
  = Returns [StoreBlock block1;
             GoShutdown (Some (Wrapf "archiver store block failed: %w"
                                 (Foreign "disk full")));
             StoreBlock block2; PushBlock block2;
             ArchiverShutdown None; ArchiverTerminated 0; ReadFlowDone].
Proof. reflexivity. Qed.

(** C2, amended: in src/unnamed/part_001, at the first [StoreBlock] that
    fails while the plugin is not terminating the consumer loop requests
    shutdown and sets [dropBlocks]; every block received afterwards is
    dropped, with no call of [StoreBlock] or [PushBlock] on it.
    src/mindreader/mindreader.go has no such flag: there every received
    block is handed to [StoreBlock]. *)
Theorem blocks_dropped_after_store_failure
    (Obj : Type) (p : MindReaderUploader.MindReaderPlugin Obj)
    (pre : list delivery) (x : delivery) (post : list delivery) (err : error)
    (terminated : option Z) (tie : bool) :
  forallb (fun d => negb (storeFails d)) pre = true ->
  storeErr x = Some err ->
  isTerminating x = false ->
  MindReaderUploader.consumeReadFlow p (pre ++ x :: post) terminated tie
  = Returns (fst (consumeAll p false pre)
             ++ [StoreBlock (block x);
                 GoShutdown (Some (Wrapf "archiver store block failed: %w" err))]
             ++ map (fun d => Dropped (block d)) post
             ++ [ArchiverShutdown None;
                 MindReaderUploader.awaitUpload
                   (MindReaderUploader.waitUploadCompleteOnShutdown p) terminated tie;
                 ReadFlowDone])
  /\ (forall (q : MindReader.MindReaderPlugin) (blocks : list delivery)
             (terminated' : option Z) (d : delivery),
         In d blocks ->
         In (StoreBlock (block d))
            (trace_of (MindReader.consumeReadFlow q blocks terminated'))).
Proof.
  intros Hpre He Ht. split.
  - unfold MindReaderUploader.consumeReadFlow. rewrite consumeLoop_app.
    rewrite (consumeAll_keeps_flag_down Obj p pre Hpre).
    cbn [MindReaderUploader.consumeLoop].
    rewrite (consumeBlock_store_failure Obj p x err He Ht).
    rewrite consumeLoop_dropping. reflexivity.
  - intros q blocks terminated' d Hin. rewrite consumeReadFlow_consumed.
    assert (Hc : In (StoreBlock (block d)) (consumed q blocks)).
    { unfold consumed. apply in_flat_map. exists d. split; [exact Hin |].
      destruct (consumeBlock_stores q d) as [tail ->]. now left. }
    destruct (MindReader.consumeReadFlow q [] terminated'); simpl;
      apply in_or_app; now left.
Qed.

Lemma blocks_dropped_after_store_failure_witness :
  MindReaderUploader.consumeReadFlow uploaderPlugin
    [delivered block1; storeFailure block1; delivered block2] (Some 0) false
  = Returns [StoreBlock block1; PushBlock block1;
             StoreBlock block1;
             GoShutdown (Some (Wrapf "archiver store block failed: %w"
                                 (Foreign "disk full")));
             Dropped block2;
             ArchiverShutdown None; ArchiverTerminated 0; ReadFlowDone].
Proof.
  apply (proj1 (blocks_dropped_after_store_failure Block uploaderPlugin
                  [delivered block1] (storeFailure block1) [delivered block2]
                  (Foreign "disk full") (Some 0) false eq_refl eq_refl eq_refl)).
Defined.

End ConsumerSpec.

(** ** The archiver scenarios *)

Module ArchiverSpec.
Import Go Bstream Archiver ArchiverTests ArchiverDefs.

Local Open Scope Z_scope.

Lemma uploaded_0 (c : Counters) : uploaded c 0 = c.
Proof. destruct c; unfold uploaded; simpl. now rewrite Z.add_0_r. Qed.

Lemma uploaded_uploaded (c : Counters) (n m : Z) :
  uploaded (uploaded c n) m = uploaded c (n + m).
Proof. unfold uploaded; simpl. now rewrite Z.add_assoc. Qed.

Lemma shouldMerge_recent (a : Archiver) (now : Z) (f : OneBlockFile) :
  batchMode a = false ->
  now - BlockTime f <= mergeThresholdBlockAge a ->
  shouldMerge a now (oneBlockFileToBlock f) = false.
Proof.
  intros Hb Hr. unfold shouldMerge. rewrite Hb. simpl.
  replace (mergeThresholdBlockAge a <? now - BlockTime f) with false
    by (symmetry; apply Z.ltb_ge; exact Hr).
  apply andb_false_r.
Qed.

Lemma shouldMerge_old (a : Archiver) (now : Z) (f : OneBlockFile) :
  currentlyMerging a = true ->
  mergeThresholdBlockAge a < now - BlockTime f ->
  shouldMerge a now (oneBlockFileToBlock f) = true.
Proof.
  intros Hm Ho. unfold shouldMerge. rewrite Hm. simpl.
  apply Z.ltb_lt in Ho. rewrite Ho. apply orb_true_r.
Qed.

(** With no bundler open, a recent block is one write to the uploadable
    lane. *)
Lemma storeBlock_live (walk : option (Counters -> Counters * (list OneBlockFile + error)))
    (a : Archiver) (now : Z) (f : OneBlockFile) (c : Counters) :
  batchMode a = false -> bundler a = None ->
  now - BlockTime f <= mergeThresholdBlockAge a ->
  storeBlock (countingIO walk) a now f (oneBlockFileToBlock f) c
  = (uploaded c 1, inl a).
Proof.
  intros Hb Hn Hr. unfold storeBlock.
  rewrite (shouldMerge_recent a now f Hb Hr). cbn [negb].
  unfold flushBundler. rewrite Hn. reflexivity.
Qed.

Lemma storeBlocks_live (walk : option (Counters -> Counters * (list OneBlockFile + error)))
    (a : Archiver) (calls : list (Z * OneBlockFile)) :
  batchMode a = false -> bundler a = None ->
  Forall (recent (mergeThresholdBlockAge a)) calls ->
  forall c : Counters,
    storeBlocks (countingIO walk) a calls c
    = (uploaded c (Z.of_nat (length calls)), inl a).
Proof.
  intros Hb Hn. induction 1 as [|[now f] calls Hr Hrs IH]; intros c.
  - simpl. now rewrite uploaded_0.
  - cbn [storeBlocks]. unfold io_bind at 1.
    rewrite (storeBlock_live walk a now f c Hb Hn Hr).
    rewrite IH, uploaded_uploaded. cbn [length]. rewrite Nat2Z.inj_succ.
    f_equal. f_equal. lia.
Qed.

(** A recent block arriving while the bundler holds one file known by
    name: the file is fetched and stored in the uploadable lane, the
    bundler is dropped, and the block is stored. *)
Lemma storeBlock_leaves_merging
    (walk : option (Counters -> Counters * (list OneBlockFile + error)))
    (a : Archiver) (b : Bundler) (held : OneBlockFile)
    (now : Z) (f : OneBlockFile) (c : Counters) :
  batchMode a = false -> bundler a = Some b -> Pending b = [held] ->
  now - BlockTime f <= mergeThresholdBlockAge a ->
  storeBlock (countingIO walk) a now f (oneBlockFileToBlock f) c
  = (uploaded c 2, inl (with_bundler a None)).
Proof.
  intros Hb Hs Hp Hr. unfold storeBlock.
  rewrite (shouldMerge_recent a now f Hb Hr). cbn [negb].
  unfold flushBundler. rewrite Hs, Hp.
  cbn [io_each]. unfold materialize.
  destruct (MemoizeData held); cbn; unfold uploaded, io_ret; cbn;
    rewrite <- Z.add_assoc; reflexivity.
Qed.

(** A bundler opened on the range of its first file: the file is held
    and completes nothing. *)
Lemma first_file_completes_nothing (bundleSize lower : N) (f : OneBlockFile) :
  (lower <= Num f < lower + bundleSize)%N ->
  let b := AddOneBlockFile (NewBundler bundleSize (lower + bundleSize)) f in
  BundleInclusiveLowerBlock b = lower
  /\ BundleCompleted b = None
  /\ Pending b = [f].
Proof.
  intros [Hlow Hhigh]. cbn zeta.
  assert (Hl : (lower + bundleSize - bundleSize)%N = lower) by lia.
  split; [exact Hl |]. split; [| reflexivity].
  unfold BundleCompleted.
  cbn [AddOneBlockFile NewBundler accepted size currentLower insertFile find].
  rewrite Hl.
  replace (N.leb (lower + bundleSize) (Num f)) with false
    by (symmetry; apply N.leb_gt; exact Hhigh).
  reflexivity.
Qed.

Lemma block_in_its_range (bundleSize n : N) :
  (0 < bundleSize)%N ->
  (n / bundleSize * bundleSize <= n < n / bundleSize * bundleSize + bundleSize)%N.
Proof.
  intros Hsize. rewrite N.mul_comm.
  pose proof (N.mod_upper_bound n bundleSize ltac:(lia)) as Hr.
  pose proof (N.div_mod n bundleSize ltac:(lia)) as Hq.
  revert Hr Hq.
  generalize (n / bundleSize)%N (n mod bundleSize)%N. intros q r Hr Hq.
  nia.
Qed.

(** The first, old block opens the bundler of its range and is written
    to the mergeable lane; alone it completes nothing. *)
Lemma storeBlock_opens_bundler
    (walk : option (Counters -> Counters * (list OneBlockFile + error)))
    (bundleSize : N) (threshold : Z) (now : Z) (f : OneBlockFile) (c : Counters) :
  (0 < bundleSize)%N ->
  threshold < now - BlockTime f ->
  exists b : Bundler,
    Pending b = [f]
    /\ storeBlock (countingIO walk) (NewArchiver bundleSize false threshold) now f
         (oneBlockFileToBlock f) c
       = (staged c, inl (with_bundler (NewArchiver bundleSize false threshold) (Some b))).
Proof.
  intros Hsize Hold.
  set (lower := (Num f / bundleSize * bundleSize)%N).
  destruct (first_file_completes_nothing bundleSize lower f
              (block_in_its_range bundleSize (Num f) Hsize)) as [Hl [Hc Hp]].
  set (b := AddOneBlockFile (NewBundler bundleSize (lower + bundleSize)) f) in *.
  exists b. split; [exact Hp |].
  unfold storeBlock.
  rewrite (shouldMerge_old (NewArchiver bundleSize false threshold) now f eq_refl Hold).
  cbn [negb]. unfold openBundler.
  cbn [bundler NewArchiver batchMode Archiver.bundleSize oneBlockFileToBlock Number].
  fold lower. unfold io_bind at 1. unfold io_ret at 1. fold b.
  rewrite Hl, Hc.
  replace (N.ltb (Num f) lower) with false
    by (symmetry; apply N.ltb_ge;
        apply (block_in_its_range bundleSize (Num f) Hsize)).
  reflexivity.
Qed.

(** *** The scenarios of src/unnamed/part_001 on the model

    Each test body is run on the model at a clock reading later than the
    2021 stamps by more than an hour; the counters are those the test
    asserts, in the order merged, deleted, mergeable, uploadable. *)

Example TestArchiver_StoreBlockNewBlocks :
  runTest (NewArchiver 5 false (superLongTimeAgo testDay)) None
    (at_ testDay srcOneBlockFiles)
  = Some (mkCounters 0 0 0 5).
Proof. vm_compute. reflexivity. Qed.

Example TestArchiver_StoreBlockNewBlocksWithExistingBundlerBlocks :
  runTest
    (with_bundler (NewArchiver 5 false (superLongTimeAgo testDay))
       (Some (fold_left AddOneBlockFile [f1; f2] (NewBundler 5 18446744073709551615))))
    None (at_ testDay [f3; f4; f6])
  = Some (mkCounters 0 0 0 5).
Proof. vm_compute. reflexivity. Qed.

Example TestArchiver_StoreBlock_OldBlocksPassThroughBoundary :
  runTest (NewArchiver 5 false hour) None (at_ testDay srcOneBlockFiles)
  = Some (mkCounters 1 4 5 0).
Proof. vm_compute. reflexivity. Qed.

Example TestArchiver_StoreBlock_BundleInclusiveLowerBlock :
  runTest (NewArchiver 5 false hour) None
    (at_ testDay [g11; g5; g12; g13; g14; g16])
  = Some (mkCounters 1 4 5 0).
Proof. vm_compute. reflexivity. Qed.

(** The test clears [currentlyMerging] after its fifth call. *)
Example TestArchiver_Store_OneBlock_after_last_merge :
  match storeBlocks (countingIO None) (NewArchiver 5 false hour)
          (at_ testDay [g11; g12; g13; g14; g16]) noCounts with
  | (c, inl a) =>
      fst (storeBlock (countingIO None) (with_currentlyMerging a false) testDay
             g17 (oneBlockFileToBlock g17) c)
  | (c, inr _) => c
  end
  = mkCounters 1 4 5 2.
Proof. vm_compute. reflexivity. Qed.

Example TestArchiver_StoreBlock_NewBlocksBatchMode :
  runTest (NewArchiver 5 true hour) (Some walkExisting) (at_ testDay batchFiles)
  = Some (mkCounters 1 4 3 0).
Proof. vm_compute. reflexivity. Qed.

Example TestArchiver_StoreBlock_NewBlocksBatchModeNonConnectedPartial_MultipleBoundaries :
  runTest (NewArchiver 5 true hour) (Some walkExisting)
    (at_ testDay multipleBoundariesFiles)
  = Some (mkCounters 2 4 6 0).
Proof. vm_compute. reflexivity. Qed.

Example TestArchiver_OldBlockToNewBlocksPassThrough :
  runTest (NewArchiver 5 false (24 * hour)) None
    (at_ (testDay + 500000000) (oldBlock :: newBlocks testDay))
  = Some (mkCounters 0 0 1 8).
Proof. vm_compute. reflexivity. Qed.

(** C4, as stated, fails: with bundle size 5 and a threshold of one hour,
    the block of the year 2000 followed by the seven blocks of today leaves
    8 writes in the uploadable lane, not 7. *)
Lemma old_then_new_uploads_8 :
  runTest (NewArchiver 5 false hour) None
    (at_ (testDay + 500000000) (oldBlock :: newBlocks testDay))
  = Some (mkCounters 0 0 1 8)
  /\ runTest (NewArchiver 5 false hour) None
       (at_ (testDay + 500000000) (oldBlock :: newBlocks testDay))
     <> Some (mkCounters 0 0 1 7).
Proof. split; [vm_compute; reflexivity | vm_compute; discriminate]. Qed.

(** C4, amended: for an archiver with a positive bundle size (5 in the
    test) and any threshold (24 h in the test, 1 h in the spec), one block
    older than the threshold followed by [n >= 1] blocks no older than it
    produces exactly 1 write to the mergeable lane (the old block),
    [n + 1] writes to the uploadable lane (the [n] new blocks and the old
    block, stored again when the first new block makes the archiver leave
    the bundler), 0 merges and 0 deletions: with the 7 new blocks of the
    test, 8 uploadable writes. *)
Theorem old_block_then_new_blocks
    (bundleSize : N) (threshold now : Z) (old : OneBlockFile)
    (first : Z * OneBlockFile) (rest : list (Z * OneBlockFile)) :
  (0 < bundleSize)%N ->
  threshold < now - BlockTime old ->
  Forall (recent threshold) (first :: rest) ->
  runTest (NewArchiver bundleSize false threshold) None
    ((now, old) :: first :: rest)
  = Some (mkCounters 0 0 1 (Z.of_nat (length (first :: rest)) + 1)).
Proof.
  intros Hsize Hold Hrecent.
  destruct first as [now1 f1]. inversion Hrecent as [|? ? Hr1 Hrs]; subst.
  unfold runTest. cbn [storeBlocks].
  destruct (storeBlock_opens_bundler None bundleSize threshold now old noCounts
              Hsize Hold) as [b [Hp Hstore]].
  set (a0 := NewArchiver bundleSize false threshold) in *.
  unfold io_bind at 1. rewrite Hstore.
  unfold io_bind at 1.
  rewrite (storeBlock_leaves_merging None (with_bundler a0 (Some b)) b old
             now1 f1 (staged noCounts) eq_refl eq_refl Hp Hr1).
  rewrite (storeBlocks_live None (with_bundler (with_bundler a0 (Some b)) None)
             rest eq_refl eq_refl Hrs).
  unfold uploaded, staged, noCounts. cbn [storedMergedFiles deletedFiles
    storedMergableOneBlockFiles storedUploadableOneBlockfiles].
  cbn [length]. rewrite Nat2Z.inj_succ.
  do 2 f_equal. lia.
Qed.

Lemma old_block_then_new_blocks_witness :
  runTest (NewArchiver 5 false (24 * hour)) None
    (at_ (testDay + 500000000) (oldBlock :: newBlocks testDay))
  = Some (mkCounters 0 0 1 8).
Proof.
  apply (old_block_then_new_blocks 5 (24 * hour) (testDay + 500000000) oldBlock).
  - reflexivity.
  - vm_compute. reflexivity.
  - repeat constructor; vm_compute; discriminate.
Defined.

End ArchiverSpec.

(* ===================================================================== *)
(** * Further properties of the code *)
(* ===================================================================== *)

(** ** The suffix accepted at construction *)

Module SuffixFacts.
Import Go Suffix Observe.

Lemma N_of_ascii_eq (c d : ascii) : N_of_ascii c = N_of_ascii d -> c = d.
Proof.
  intros H. rewrite <- (ascii_N_embedding c), <- (ascii_N_embedding d).
  now rewrite H.
Qed.

Lemma in_class_suffixChar (c : ascii) :
  in_class suffix_class c = true <-> suffixChar c.
Proof.
  unfold in_class, suffix_class, perl_word, suffixChar. cbn [app existsb in_item].
  rewrite !orb_true_iff, !andb_true_iff, !N.leb_le, !Ascii.eqb_eq.
  change (N_of_ascii "0") with 48%N. change (N_of_ascii "9") with 57%N.
  change (N_of_ascii "A") with 65%N. change (N_of_ascii "Z") with 90%N.
  change (N_of_ascii "a") with 97%N. change (N_of_ascii "z") with 122%N.
  split.
  - intros [H | [H | [H | [H | [H | H]]]]]; try tauto.
    + subst c. right; right; left. reflexivity.
    + subst c. right; right; right; right. reflexivity.
    + discriminate H.
  - intros [H | [H | [H | [H | H]]]].
    + left. exact H.
    + right; left. exact H.
    + right; right; left. apply N_of_ascii_eq. exact H.
    + right; right; right; left. exact H.
    + right; right; right; right; left. apply N_of_ascii_eq. exact H.
Qed.

Lemma all_in_suffixChars (s : string) :
  all_in suffix_class s = true <-> Forall suffixChar (list_ascii_of_string s).
Proof.
  induction s as [|c s IH]; cbn [all_in list_ascii_of_string].
  - split; [constructor | reflexivity].
  - rewrite andb_true_iff, in_class_suffixChar, IH. split.
    + intros [Hc Hs]. now constructor.
    + intros H. inversion H; subst. now split.
Qed.

(** X1: [validateOneBlockSuffix] of src/mindreader/mindreader.go returns
    nil exactly on the non-empty strings made of digits, ASCII letters,
    underscores and hyphens only. *)
Theorem validateOneBlockSuffix_accepts (suffix : string) :
  MindReader.validateOneBlockSuffix suffix = None <->
  suffix <> "" /\ Forall suffixChar (list_ascii_of_string suffix).
Proof.
  unfold MindReader.validateOneBlockSuffix.
  destruct (String.eqb_spec suffix "") as [-> | Hne].
  - split; [discriminate | intros [H _]; now elim H].
  - rewrite <- all_in_suffixChars.
    destruct suffix as [|c rest]; [now elim Hne |].
    cbn [oneblockSuffixRegexp_MatchString].
    destruct (all_in suffix_class (String c rest)); cbn [negb].
    + split; [intros _; split; [exact Hne | reflexivity] | reflexivity].
    + split; [discriminate | intros [_ H]; discriminate H].
Qed.

Lemma validateOneBlockSuffix_accepts_witness :
  MindReader.validateOneBlockSuffix "node-1_a" = None.
Proof.
  apply (proj2 (validateOneBlockSuffix_accepts "node-1_a")).
  split; [discriminate |].
  apply all_in_suffixChars. reflexivity.
Defined.



End SuffixFacts.

(** ** The ingest loops *)

Module IngestFacts.
Import Go Bstream Effects EffectsFacts IngestDefs Observe.

Lemma trace_of_after (tr : trace) (o : outcome) :
  trace_of (after tr o) = tr ++ trace_of o.
Proof. destruct o; reflexivity. Qed.

Lemma returned_after (tr : trace) (o : outcome) :
  returned (after tr o) = returned o.
Proof. destruct o; reflexivity. Qed.

Lemma closings_app (t1 t2 : trace) :
  closings (t1 ++ t2) = (closings t1 + closings t2)%nat.
Proof. unfold closings. now rewrite filter_app, length_app. Qed.

(** What one successful [readOneMessage] shows to each observer. *)
Lemma relay_observed (hook : bool) (stop : N) (b : Block) (t : bool) :
  let tr := hookCall hook b ++ BlocksSend b :: stopRequest stop b t in
  sentBlocks tr = [b]
  /\ closings tr = O
  /\ shutdowns tr = []
  /\ goShutdowns tr = (if stopReached stop b t then [None] else []).
Proof.
  cbn zeta. unfold hookCall, stopRequest.
  destruct hook, (stopReached stop b t); repeat split; reflexivity.
Qed.

Lemma ingest_block (p : MindReader.MindReaderPlugin) (b : Block) (t : bool)
    (rest : list (read_result * bool)) (lines : option (chan string)) :
  MindReader.ingest p ((inl b, t) :: rest) lines
  = after (hookCall (MindReader.headBlockUpdateFunc p) b
           ++ BlocksSend b :: stopRequest (MindReader.stopBlock p) b t)
      (MindReader.ingest p rest lines).
Proof.
  change (MindReader.ingest p ((inl b, t) :: rest) lines)
    with (let (tr, err) := MindReader.readOneMessage p (inl b) t in
          match err with
          | None => after tr (MindReader.ingest p rest lines)
          | Some err =>
              if is_EOF err then Returns (tr ++ [BlocksClose])
              else
                let (drained, done) := MindReader.drainMessages lines in
                if done
                then Returns (tr ++ Shutdown (Some err) :: drained ++ [BlocksClose])
                else Parked (tr ++ Shutdown (Some err) :: drained)
          end).
  rewrite IngestSpec.readOneMessage_block. reflexivity.
Qed.

Lemma ingest_error (p : MindReader.MindReaderPlugin) (err : error) (t : bool)
    (rest : list (read_result * bool)) (lines : option (chan string)) :
  MindReader.ingest p ((inr err, t) :: rest) lines
  = if is_EOF err then Returns [BlocksClose]
    else match lines with
         | Some c =>
             if closed c
             then Returns (Shutdown (Some err) :: map LinesRecv (buf c) ++ [BlocksClose])
             else Parked (Shutdown (Some err) :: map LinesRecv (buf c))
         | None => Parked [Shutdown (Some err)]
         end.
Proof.
  cbn. destruct (is_EOF err); [reflexivity |].
  destruct lines as [c|]; cbn; [destruct (closed c) |]; reflexivity.
Qed.

Lemma drained_observed (ls : list string) :
  sentBlocks (map LinesRecv ls) = []
  /\ closings (map LinesRecv ls) = O
  /\ shutdowns (map LinesRecv ls) = []
  /\ goShutdowns (map LinesRecv ls) = []
  /\ receivedLines (map LinesRecv ls) = ls.
Proof.
  induction ls as [|l ls [H1 [H2 [H3 [H4 H5]]]]]; [repeat split; reflexivity |].
  repeat split; cbn; try assumption. now rewrite <- H5 at 2.
Qed.

(** The blocks sent are the blocks read before the first error. *)
Lemma ingest_sent (p : MindReader.MindReaderPlugin)
    (reads : list (read_result * bool)) (lines : option (chan string)) :
  sentBlocks (trace_of (MindReader.ingest p reads lines)) = blocksBeforeError reads.
Proof.
  induction reads as [|[[b | err] t] reads IH].
  - reflexivity.
  - rewrite ingest_block, trace_of_after. unfold sentBlocks in *.
    rewrite flat_map_app.
    destruct (relay_observed (MindReader.headBlockUpdateFunc p)
                (MindReader.stopBlock p) b t) as [Hs _].
    unfold sentBlocks in Hs. rewrite Hs, IH. reflexivity.
  - rewrite ingest_error. cbn [blocksBeforeError].
    destruct (is_EOF err); [reflexivity |].
    destruct lines as [c|]; [| reflexivity].
    destruct (drained_observed (buf c)) as [Hd _]. unfold sentBlocks in *.
    destruct (closed c); cbn [trace_of flat_map app];
      [rewrite flat_map_app |]; rewrite Hd; reflexivity.
Qed.

Lemma relay_receives_nothing (hook : bool) (stop : N) (b : Block) (t : bool) :
  receivedLines (hookCall hook b ++ BlocksSend b :: stopRequest stop b t) = [].
Proof.
  unfold hookCall, stopRequest. destruct hook, (stopReached stop b t); reflexivity.
Qed.

(** X3: the ingest loop of src/mindreader/mindreader.go sends on [blocks]
    exactly the blocks the reader returned before its first error, each
    once and in the order read; nothing read after the first error is
    sent.  It receives from [lines] only after a first error other than
    [io.EOF], and then every queued line, in order. *)
Theorem ingest_sends_blocks_in_order (p : MindReader.MindReaderPlugin)
    (reads : list (read_result * bool)) (lines : option (chan string)) :
  let tr := trace_of (MindReader.ingest p reads lines) in
  sentBlocks tr = blocksBeforeError reads
  /\ receivedLines tr
     = match firstError reads, lines with
       | Some err, Some c => if is_EOF err then [] else buf c
       | _, _ => []
       end.
Proof.
  cbn zeta. split; [apply ingest_sent |].
  induction reads as [|[[b | err] t] reads IH].
  - reflexivity.
  - rewrite ingest_block, trace_of_after. unfold receivedLines in *.
    rewrite flat_map_app.
    pose proof (relay_receives_nothing (MindReader.headBlockUpdateFunc p)
                  (MindReader.stopBlock p) b t) as Hn.
    unfold receivedLines in Hn. rewrite Hn, IH. reflexivity.
  - rewrite ingest_error. cbn [firstError].
    destruct (is_EOF err); [destruct lines; reflexivity |].
    destruct lines as [c|]; [| reflexivity].
    destruct (drained_observed (buf c)) as [_ [_ [_ [_ Hd]]]].
    unfold receivedLines in *.
    destruct (closed c); cbn [trace_of flat_map app];
      [rewrite flat_map_app |]; rewrite Hd; [now rewrite app_nil_r | reflexivity].
Qed.

(** X4: the ingest loop of src/mindreader/mindreader.go returns exactly
    when the reader's first error is [io.EOF], or is another error and
    [lines] gets closed; [blocks] is closed once when the loop returns, as
    its last action, and is not closed while the loop has not returned. *)
Theorem ingest_closes_blocks_once (p : MindReader.MindReaderPlugin)
    (reads : list (read_result * bool)) (lines : option (chan string)) :
  let o := MindReader.ingest p reads lines in
  returned o
  = match firstError reads with
    | Some err => is_EOF err || isClosed lines
    | None => false
    end
  /\ closings (trace_of o) = (if returned o then 1%nat else O)
  /\ (returned o = true ->
      exists tr, trace_of o = tr ++ [BlocksClose] /\ closings tr = O).
Proof.
  cbn zeta. induction reads as [|[[b | err] t] reads IH].
  - repeat split; [discriminate].
  - rewrite ingest_block, trace_of_after, returned_after.
    destruct IH as [Hr [Hc Hl]]. cbn [firstError].
    destruct (relay_observed (MindReader.headBlockUpdateFunc p)
                (MindReader.stopBlock p) b t) as [_ [Hc0 _]].
    split; [exact Hr |]. split.
    + rewrite closings_app, Hc0, Hc. reflexivity.
    + intros Hret. destruct (Hl Hret) as [tr [Htr Hn]].
      exists ((hookCall (MindReader.headBlockUpdateFunc p) b
               ++ BlocksSend b :: stopRequest (MindReader.stopBlock p) b t) ++ tr).
      split; [rewrite Htr; now rewrite app_assoc |].
      rewrite closings_app, Hc0, Hn. reflexivity.
  - rewrite ingest_error. cbn [firstError].
    destruct (is_EOF err).
    + repeat split. intros _. exists []. split; reflexivity.
    + destruct lines as [c|]; cbn [isClosed orb];
        [| repeat split; discriminate].
      destruct (drained_observed (buf c)) as [_ [Hd _]].
      destruct (closed c); cbn [returned trace_of].
      * split; [reflexivity |]. split.
        -- change (closings (Shutdown (Some err) :: map LinesRecv (buf c) ++ [BlocksClose]))
             with (closings (map LinesRecv (buf c) ++ [BlocksClose])).
           rewrite closings_app, Hd. reflexivity.
        -- intros _. exists (Shutdown (Some err) :: map LinesRecv (buf c)).
           split; [reflexivity |]. exact Hd.
      * split; [reflexivity |]. split; [exact Hd | discriminate].
Qed.

Lemma ingest_closes_blocks_once_witness :
  exists tr,
    trace_of (MindReader.ingest hookedPlugin
                [(inl block3, false); (inr (Foreign "read failed"), false)]
                (Some (mkChan 10000 ["a"] true)))
    = tr ++ [BlocksClose]
    /\ closings tr = O.
Proof.
  apply (proj2 (proj2 (ingest_closes_blocks_once hookedPlugin
                         [(inl block3, false); (inr (Foreign "read failed"), false)]
                         (Some (mkChan 10000 ["a"] true))))).
  reflexivity.
Defined.

Lemma goShutdowns_app (t1 t2 : trace) :
  goShutdowns (t1 ++ t2) = goShutdowns t1 ++ goShutdowns t2.
Proof. apply flat_map_app. Qed.

Lemma shutdowns_app (t1 t2 : trace) :
  shutdowns (t1 ++ t2) = shutdowns t1 ++ shutdowns t2.
Proof. apply flat_map_app. Qed.

Lemma sentBlocks_app (t1 t2 : trace) :
  sentBlocks (t1 ++ t2) = sentBlocks t1 ++ sentBlocks t2.
Proof. apply flat_map_app. Qed.

(** X5: the ingest loop of src/mindreader/mindreader.go calls
    [p.Shutdown(err)] at most once, for a first reader error other than
    [io.EOF] and with that very error; its [go p.Shutdown(..)] calls all
    carry nil, and there is none when [stopBlock] is 0 or when the plugin
    is seen terminating on every read. *)
Theorem ingest_shutdown_requests (p : MindReader.MindReaderPlugin)
    (reads : list (read_result * bool)) (lines : option (chan string)) :
  let tr := trace_of (MindReader.ingest p reads lines) in
  shutdowns tr
  = match firstError reads with
    | Some err => if is_EOF err then [] else [Some err]
    | None => []
    end
  /\ Forall (fun err => err = None) (goShutdowns tr)
  /\ (MindReader.stopBlock p = 0%N -> goShutdowns tr = [])
  /\ (Forall (fun rd => snd rd = true) reads -> goShutdowns tr = []).
Proof.
  cbn zeta. induction reads as [|[[b | err] t] reads IH].
  - repeat split; constructor.
  - rewrite ingest_block, trace_of_after, shutdowns_app, goShutdowns_app.
    destruct IH as [Hs [Hg [H0 Ht]]].
    destruct (relay_observed (MindReader.headBlockUpdateFunc p)
                (MindReader.stopBlock p) b t) as [_ [_ [Hs0 Hg0]]].
    rewrite Hs0, Hg0. cbn [firstError app].
    split; [exact Hs |]. split; [| split].
    + destruct (stopReached (MindReader.stopBlock p) b t); cbn [app];
        [constructor; [reflexivity | exact Hg] | exact Hg].
    + intros Hz. rewrite (H0 Hz). unfold stopReached. rewrite Hz. reflexivity.
    + intros Hall. inversion Hall as [|? ? Hhd Htl]; subst. cbn [snd] in Hhd.
      subst t. rewrite (Ht Htl). unfold stopReached.
      now rewrite andb_false_r.
  - rewrite ingest_error. cbn [firstError].
    destruct (is_EOF err); [repeat split; constructor |].
    destruct lines as [c|]; [| repeat split; constructor].
    destruct (drained_observed (buf c)) as [_ [_ [Hs [Hg _]]]].
    destruct (closed c); cbn [trace_of].
    + change (Shutdown (Some err) :: map LinesRecv (buf c) ++ [BlocksClose])
        with ([Shutdown (Some err)] ++ map LinesRecv (buf c) ++ [BlocksClose]).
      rewrite !shutdowns_app, !goShutdowns_app, Hs, Hg.
      repeat split; constructor.
    + change (Shutdown (Some err) :: map LinesRecv (buf c))
        with ([Shutdown (Some err)] ++ map LinesRecv (buf c)).
      rewrite !shutdowns_app, !goShutdowns_app, Hs, Hg.
      repeat split; constructor.
Qed.

Lemma ingest_shutdown_requests_witness :
  goShutdowns (trace_of (MindReader.ingest hookedPlugin
                           [(inl block3, false); (inr EOF, false)] None)) = [].
Proof.
  apply (proj1 (proj2 (proj2 (ingest_shutdown_requests hookedPlugin
                                [(inl block3, false); (inr EOF, false)] None)))).
  reflexivity.
Defined.

Section Uploader.

Variable Obj : Type.
Variable p : MindReaderUploader.MindReaderPlugin Obj.

Lemma uploader_ingest_step (rd : Obj + error) (t : bool)
    (rest : list ((Obj + error) * bool)) :
  MindReaderUploader.ingest p ((rd, t) :: rest)
  = match MindReaderUploader.readOneMessage p rd t with
    | (tr, None) => after tr (MindReaderUploader.ingest p rest)
    | (tr, Some err) =>
        if is_EOF err then Returns (tr ++ [BlocksClose])
        else after (tr ++ [Shutdown (Some err)]) (MindReaderUploader.ingest p rest)
    end.
Proof. reflexivity. Qed.

(** On an error of [Read] or of the transformer nothing is sent. *)
Lemma uploader_read_error (err : error) (t : bool) :
  MindReaderUploader.readOneMessage p (inr err) t = ([], Some err).
Proof. reflexivity. Qed.

Lemma uploader_transform_error (obj : Obj) (err : error) (t : bool) :
  MindReaderUploader.transformer p obj = inr err ->
  MindReaderUploader.readOneMessage p (inl obj) t
  = ([], Some (Wrapf "unable to transform console read obj to bstream.Block: %w" err)).
Proof. intros H. unfold MindReaderUploader.readOneMessage. now rewrite H. Qed.

(** X6: the ingest loop of src/unnamed/part_001 returns exactly when
    [Read] returns [io.EOF] itself, and closes [blocks] once, then; every
    other error, in order, is handed to [p.Shutdown] and the loop goes on
    reading.  A transformer error is wrapped before the test, so even
    [io.EOF] coming out of the transformer does not end the loop. *)
Theorem uploader_ingest_survives_errors (reads : list ((Obj + error) * bool)) :
  let o := MindReaderUploader.ingest p reads in
  returned o = existsb readEOF reads
  /\ closings (trace_of o) = (if returned o then 1%nat else O)
  /\ shutdowns (trace_of o) = reportedErrors p reads.
Proof.
  cbn zeta. induction reads as [|[[obj | err] t] reads [Hr [Hc Hs]]].
  - repeat split.
  - rewrite uploader_ingest_step. cbn [existsb readEOF fst orb reportedErrors].
    destruct (MindReaderUploader.transformer p obj) as [b | err] eqn:Etr.
    + rewrite (IngestSpec.readOneMessage_gate Obj p obj b t Etr).
      destruct (MindReaderUploader.pass (MindReaderUploader.startGate p) b).
      * rewrite returned_after, trace_of_after, closings_app, shutdowns_app.
        destruct (relay_observed (MindReaderUploader.headBlockUpdateFunc p)
                    (MindReaderUploader.stopBlock p) b t) as [_ [Hc0 [Hs0 _]]].
        rewrite Hc0, Hs0. repeat split; assumption.
      * rewrite after_nil. repeat split; assumption.
    + rewrite (uploader_transform_error obj err t Etr). cbn [is_EOF app].
      rewrite returned_after, trace_of_after, closings_app, shutdowns_app.
      cbn. split; [exact Hr |]. split; [exact Hc | now rewrite Hs].
  - rewrite uploader_ingest_step, uploader_read_error.
    cbn [existsb readEOF fst reportedErrors].
    destruct (is_EOF err); cbn [orb app].
    + repeat split.
    + rewrite returned_after, trace_of_after, closings_app, shutdowns_app.
      cbn. split; [exact Hr |]. split; [exact Hc | now rewrite Hs].
Qed.

(** X7: the ingest loop of src/unnamed/part_001 sends on [blocks], in
    the order read, exactly the blocks that come out of the transformer
    and pass the start gate, among the reads before the first [io.EOF];
    a failed read or transformation in between loses no later block. *)
Theorem uploader_ingest_sends_passed_blocks (reads : list ((Obj + error) * bool)) :
  sentBlocks (trace_of (MindReaderUploader.ingest p reads)) = passedBlocks p reads.
Proof.
  induction reads as [|[[obj | err] t] reads IH].
  - reflexivity.
  - rewrite uploader_ingest_step. cbn [passedBlocks].
    destruct (MindReaderUploader.transformer p obj) as [b | err] eqn:Etr.
    + rewrite (IngestSpec.readOneMessage_gate Obj p obj b t Etr).
      destruct (MindReaderUploader.pass (MindReaderUploader.startGate p) b).
      * rewrite trace_of_after, sentBlocks_app, IH.
        destruct (relay_observed (MindReaderUploader.headBlockUpdateFunc p)
                    (MindReaderUploader.stopBlock p) b t) as [Hs0 _].
        rewrite Hs0. reflexivity.
      * rewrite after_nil. exact IH.
    + rewrite (uploader_transform_error obj err t Etr). cbn [is_EOF app].
      rewrite trace_of_after, sentBlocks_app, IH. reflexivity.
  - rewrite uploader_ingest_step, uploader_read_error. cbn [passedBlocks].
    destruct (is_EOF err); cbn [app]; [reflexivity |].
    rewrite trace_of_after, sentBlocks_app, IH. reflexivity.
Qed.

End Uploader.

End IngestFacts.

(** ** The consumer loops *)

Module ConsumerFacts.
Import Go Bstream Effects EffectsFacts IngestDefs ConsumerDefs Observe.

Local Open Scope Z_scope.

Lemma storedBlocks_app (t1 t2 : trace) :
  storedBlocks (t1 ++ t2) = storedBlocks t1 ++ storedBlocks t2.
Proof. apply flat_map_app. Qed.

Lemma pushedBlocks_app (t1 t2 : trace) :
  pushedBlocks (t1 ++ t2) = pushedBlocks t1 ++ pushedBlocks t2.
Proof. apply flat_map_app. Qed.

Lemma droppedBlocks_app (t1 t2 : trace) :
  droppedBlocks (t1 ++ t2) = droppedBlocks t1 ++ droppedBlocks t2.
Proof. apply flat_map_app. Qed.

Lemma goShutdowns_app' (t1 t2 : trace) :
  goShutdowns (t1 ++ t2) = goShutdowns t1 ++ goShutdowns t2.
Proof. apply flat_map_app. Qed.

Lemma storeFailureRequests_app (t1 t2 : trace) :
  storeFailureRequests (t1 ++ t2) = storeFailureRequests t1 ++ storeFailureRequests t2.
Proof. unfold storeFailureRequests. now rewrite goShutdowns_app', filter_app. Qed.

(** What the end of [consumeReadFlow] of src/mindreader/mindreader.go
    shows: no block is touched once [blocks] is closed. *)
Lemma closing_observed (p : MindReader.MindReaderPlugin) (terminated : option Z) :
  let tr := trace_of (MindReader.consumeReadFlow p [] terminated) in
  storedBlocks tr = [] /\ pushedBlocks tr = [] /\ goShutdowns tr = []
  /\ shutdowns tr = [].
Proof. destruct terminated; repeat split. Qed.

(** One iteration of the loop of src/mindreader/mindreader.go. *)
Lemma consumeBlock_observed (p : MindReader.MindReaderPlugin) (d : delivery) :
  let tr := fst (MindReader.consumeBlock p d) in
  storedBlocks tr = [block d]
  /\ pushedBlocks tr
     = (if MindReader.blockStreamServer p && negb (storeFails d) then [block d] else [])
  /\ shutdowns tr = []
  /\ Forall (fun err => err <> None) (goShutdowns tr)
  /\ (isTerminating d = true \/ (storeErr d = None /\ pushErr d = None) ->
      goShutdowns tr = []).
Proof.
  cbn zeta. unfold MindReader.consumeBlock, storeFails.
  destruct (storeErr d), (isTerminating d), (MindReader.blockStreamServer p),
    (pushErr d); cbn; repeat split;
    try (repeat constructor; discriminate);
    try (intros [H | [H1 H2]]; discriminate).
Qed.

Lemma consumed_stored (p : MindReader.MindReaderPlugin) (blocks : list delivery) :
  storedBlocks (consumed p blocks) = map block blocks.
Proof.
  induction blocks as [|d blocks IH]; [reflexivity |].
  change (consumed p (d :: blocks))
    with (fst (MindReader.consumeBlock p d) ++ consumed p blocks).
  rewrite storedBlocks_app, IH.
  destruct (consumeBlock_observed p d) as [-> _]. reflexivity.
Qed.

(** X8: the consumer loop of src/mindreader/mindreader.go hands every
    block it receives to [StoreBlock], once and in the order received,
    whatever failed before; it hands to [PushBlock], in order, the
    blocks whose store did not fail while the plugin was not terminating,
    and none when no block-stream server is installed.  A block whose
    store failed during termination is still pushed. *)
Theorem consumer_stores_every_block (p : MindReader.MindReaderPlugin)
    (blocks : list delivery) (terminated : option Z) :
  let tr := trace_of (MindReader.consumeReadFlow p blocks terminated) in
  storedBlocks tr = map block blocks
  /\ pushedBlocks tr
     = map block
         (filter (fun d => MindReader.blockStreamServer p && negb (storeFails d)) blocks).
Proof.
  cbn zeta. rewrite ConsumerSpec.consumeReadFlow_consumed, IngestFacts.trace_of_after.
  destruct (closing_observed p terminated) as [Hs [Hp _]].
  rewrite storedBlocks_app, pushedBlocks_app, Hs, Hp, !app_nil_r.
  split; [apply consumed_stored |].
  induction blocks as [|d blocks IH]; [reflexivity |].
  change (consumed p (d :: blocks))
    with (fst (MindReader.consumeBlock p d) ++ consumed p blocks).
  rewrite pushedBlocks_app, IH.
  destruct (consumeBlock_observed p d) as [_ [-> _]]. cbn [filter].
  destruct (MindReader.blockStreamServer p && negb (storeFails d)); reflexivity.
Qed.

(** X9: the consumer loop of src/mindreader/mindreader.go never calls
    [p.Shutdown] inline; every [go p.Shutdown(err)] it issues carries a
    non-nil error; and it issues none when, for every block, the plugin is
    already terminating or neither [StoreBlock] nor [PushBlock] fails. *)
Theorem consumer_shutdown_requests (p : MindReader.MindReaderPlugin)
    (blocks : list delivery) (terminated : option Z) :
  let tr := trace_of (MindReader.consumeReadFlow p blocks terminated) in
  shutdowns tr = []
  /\ Forall (fun err => err <> None) (goShutdowns tr)
  /\ (Forall (fun d => isTerminating d = true
                       \/ (storeErr d = None /\ pushErr d = None)) blocks ->
      goShutdowns tr = []).
Proof.
  cbn zeta. rewrite ConsumerSpec.consumeReadFlow_consumed, IngestFacts.trace_of_after.
  destruct (closing_observed p terminated) as [_ [_ [Hg Hs]]].
  rewrite IngestFacts.shutdowns_app, goShutdowns_app', Hg, Hs, !app_nil_r.
  induction blocks as [|d blocks [IH1 [IH2 IH3]]]; [repeat split; constructor |].
  change (consumed p (d :: blocks))
    with (fst (MindReader.consumeBlock p d) ++ consumed p blocks).
  rewrite IngestFacts.shutdowns_app, goShutdowns_app'.
  destruct (consumeBlock_observed p d) as [_ [_ [Hs0 [Hg0 Hq]]]].
  split; [now rewrite Hs0, IH1 |]. split.
  - apply Forall_app. split; assumption.
  - intros Hall. inversion Hall as [|? ? Hd Hrest]; subst.
    now rewrite (Hq Hd), (IH3 Hrest).
Qed.

Lemma consumer_shutdown_requests_witness :
  goShutdowns
    (trace_of (MindReader.consumeReadFlow serverPlugin
                 [mkDelivery block1 (Some (Foreign "disk full")) None true]
                 (Some 0)))
  = [].
Proof.
  apply (proj2 (proj2 (consumer_shutdown_requests serverPlugin
                         [mkDelivery block1 (Some (Foreign "disk full")) None true]
                         (Some 0)))).
  repeat constructor.
Defined.

Section Uploader.

Variable Obj : Type.
Variable p : MindReaderUploader.MindReaderPlugin Obj.

Lemma closing_untouched (terminated : option Z) (tie : bool) :
  storedBlocks (closing p terminated tie) = []
  /\ pushedBlocks (closing p terminated tie) = []
  /\ droppedBlocks (closing p terminated tie) = []
  /\ goShutdowns (closing p terminated tie) = [].
Proof.
  unfold closing, MindReaderUploader.awaitUpload.
  destruct terminated as [t|]; cbn;
    repeat match goal with |- context [if ?c then _ else _] => destruct c end;
    repeat split.
Qed.

Lemma dropped_observed (post : list delivery) :
  storedBlocks (map (fun d => Dropped (block d)) post) = []
  /\ pushedBlocks (map (fun d => Dropped (block d)) post) = []
  /\ droppedBlocks (map (fun d => Dropped (block d)) post) = map block post
  /\ goShutdowns (map (fun d => Dropped (block d)) post) = [].
Proof.
  induction post as [|d post [H1 [H2 [H3 H4]]]]; [repeat split |].
  cbn. repeat split; try assumption. now rewrite <- H3.
Qed.

(** One iteration with the flag down, on a block whose store does not
    raise it. *)
Lemma clean_block_observed (d : delivery) :
  storeFails d = false ->
  let tr := fst (MindReaderUploader.consumeBlock p false d) in
  storedBlocks tr = [block d]
  /\ droppedBlocks tr = []
  /\ storeFailureRequests tr = []
  /\ pushedBlocks tr
     = (if MindReaderUploader.blockStreamServer p then [block d] else []).
Proof.
  unfold storeFails, MindReaderUploader.consumeBlock. cbn zeta.
  destruct (storeErr d), (isTerminating d),
    (MindReaderUploader.blockStreamServer p), (pushErr d);
    cbn; try discriminate; intros _; repeat split.
Qed.

Lemma clean_prefix_observed (pre : list delivery) :
  forallb (fun d => negb (storeFails d)) pre = true ->
  let tr := fst (consumeAll p false pre) in
  storedBlocks tr = map block pre
  /\ droppedBlocks tr = []
  /\ storeFailureRequests tr = []
  /\ pushedBlocks tr
     = (if MindReaderUploader.blockStreamServer p then map block pre else []).
Proof.
  induction pre as [|d pre IH].
  - intros _. cbn. destruct (MindReaderUploader.blockStreamServer p); repeat split.
  - cbn [forallb]. rewrite andb_true_iff, negb_true_iff. intros [Hd Hpre].
    cbn zeta. cbn [consumeAll].
    pose proof (ConsumerSpec.consumeBlock_keeps_flag_down Obj p d Hd) as Hk.
    destruct (clean_block_observed d Hd) as [H1 [H2 [H3 H4]]].
    destruct (MindReaderUploader.consumeBlock p false d) as [tr drop'].
    cbn [fst snd] in *. subst drop'.
    destruct (IH Hpre) as [I1 [I2 [I3 I4]]].
    destruct (consumeAll p false pre) as [tr' drop'']. cbn [fst] in *.
    rewrite storedBlocks_app, droppedBlocks_app, storeFailureRequests_app,
      pushedBlocks_app, H1, H2, H3, H4, I1, I2, I3, I4.
    destruct (MindReaderUploader.blockStreamServer p); repeat split.
Qed.

(** The blocks received split at the first store that raises the flag. *)
Lemma split_at_store_failure (blocks : list delivery) :
  forallb (fun d => negb (storeFails d)) blocks = true
  \/ exists pre x post,
       blocks = pre ++ x :: post
       /\ forallb (fun d => negb (storeFails d)) pre = true
       /\ storeFails x = true.
Proof.
  induction blocks as [|d blocks IH]; [now left |].
  destruct (storeFails d) eqn:Ed.
  - right. exists [], d, blocks. repeat split. exact Ed.
  - destruct IH as [Hc | [pre [x [post [-> [Hpre Hx]]]]]].
    + left. cbn [forallb]. now rewrite Ed, Hc.
    + right. exists (d :: pre), x, post. repeat split; [| exact Hx].
      cbn [forallb]. now rewrite Ed, Hpre.
Qed.

(** The whole trace of the loop, in the two cases. *)
Lemma consume_shape (blocks : list delivery) (terminated : option Z) (tie : bool) :
  (forallb (fun d => negb (storeFails d)) blocks = true
   /\ trace_of (MindReaderUploader.consumeReadFlow p blocks terminated tie)
      = fst (consumeAll p false blocks) ++ closing p terminated tie)
  \/ exists pre x post err,
       blocks = pre ++ x :: post
       /\ forallb (fun d => negb (storeFails d)) pre = true
       /\ storeFails x = true
       /\ trace_of (MindReaderUploader.consumeReadFlow p blocks terminated tie)
          = fst (consumeAll p false pre)
            ++ [StoreBlock (block x);
                GoShutdown (Some (Wrapf "archiver store block failed: %w" err))]
            ++ map (fun d => Dropped (block d)) post
            ++ closing p terminated tie.
Proof.
  unfold MindReaderUploader.consumeReadFlow.
  destruct (split_at_store_failure blocks) as [Hc | [pre [x [post [-> [Hpre Hx]]]]]].
  - left. split; [exact Hc |].
    pose proof (ConsumerSpec.consumeLoop_app Obj p blocks [] false terminated tie) as Happ.
    rewrite app_nil_r in Happ. rewrite Happ. reflexivity.
  - right. pose proof Hx as Hx'. unfold storeFails in Hx. apply andb_true_iff in Hx.
    destruct Hx as [Hf Ht]. apply negb_true_iff in Ht.
    destruct (storeErr x) as [err|] eqn:He; [| discriminate].
    exists pre, x, post, err. split; [reflexivity |]. split; [exact Hpre |].
    split; [exact Hx' |].
    rewrite ConsumerSpec.consumeLoop_app.
    rewrite (ConsumerSpec.consumeAll_keeps_flag_down Obj p pre Hpre).
    cbn [MindReaderUploader.consumeLoop].
    rewrite (ConsumerSpec.consumeBlock_store_failure Obj p x err He Ht).
    rewrite ConsumerSpec.consumeLoop_dropping. reflexivity.
Qed.

(** X10: in the consumer loop of src/unnamed/part_001 every received
    block is either handed to [StoreBlock] or dropped, never both: the
    blocks stored followed by the blocks dropped are the blocks received,
    in order.  Only a failed store raises the drop flag: when no store
    fails while the plugin is not terminating nothing is dropped, even if
    [PushBlock] fails; and the blocks pushed are an initial stretch of
    the blocks stored. *)
Theorem uploader_blocks_stored_or_dropped (blocks : list delivery)
    (terminated : option Z) (tie : bool) :
  let tr := trace_of (MindReaderUploader.consumeReadFlow p blocks terminated tie) in
  storedBlocks tr ++ droppedBlocks tr = map block blocks
  /\ (forallb (fun d => negb (storeFails d)) blocks = true -> droppedBlocks tr = [])
  /\ (exists later, storedBlocks tr = pushedBlocks tr ++ later).
Proof.
  cbn zeta.
  destruct (closing_untouched terminated tie) as [C1 [C2 [C3 C4]]].
  destruct (consume_shape blocks terminated tie)
    as [[Hc ->] | [pre [x [post [err [-> [Hpre [Hfail ->]]]]]]]].
  - destruct (clean_prefix_observed blocks Hc) as [H1 [H2 [_ H4]]].
    rewrite storedBlocks_app, droppedBlocks_app, pushedBlocks_app,
      H1, H2, H4, C1, C2, C3, !app_nil_r.
    split; [reflexivity |]. split; [reflexivity |].
    destruct (MindReaderUploader.blockStreamServer p);
      [exists []; now rewrite app_nil_r | exists (map block blocks); reflexivity].
  - destruct (clean_prefix_observed pre Hpre) as [H1 [H2 [_ H4]]].
    destruct (dropped_observed post) as [D1 [D2 [D3 _]]].
    rewrite !storedBlocks_app, !droppedBlocks_app, !pushedBlocks_app,
      H1, H2, H4, D1, D2, D3, C1, C2, C3.
    cbn [storedBlocks droppedBlocks pushedBlocks flat_map app].
    rewrite !app_nil_r. split; [| split].
    + rewrite map_app. cbn [map]. now rewrite <- app_assoc.
    + intros Hall. rewrite forallb_app in Hall. apply andb_true_iff in Hall.
      destruct Hall as [_ Hall]. cbn [forallb] in Hall.
      apply andb_true_iff in Hall. destruct Hall as [Hx _].
      rewrite Hfail in Hx. discriminate Hx.
    + destruct (MindReaderUploader.blockStreamServer p);
        [exists [block x]; reflexivity
        | exists (map block pre ++ [block x]); reflexivity].
Qed.

(** X11: the consumer loop of src/unnamed/part_001 issues
    [go p.Shutdown] for a failed store at most once in a run, and exactly
    once when some store fails while the plugin is not terminating: the
    blocks after that one are dropped without a store, so no second
    failure is met. *)
Theorem uploader_requests_shutdown_once (blocks : list delivery)
    (terminated : option Z) (tie : bool) :
  let tr := trace_of (MindReaderUploader.consumeReadFlow p blocks terminated tie) in
  (length (storeFailureRequests tr) <= 1)%nat
  /\ (forallb (fun d => negb (storeFails d)) blocks = true ->
      storeFailureRequests tr = [])
  /\ (forallb (fun d => negb (storeFails d)) blocks = false ->
      length (storeFailureRequests tr) = 1%nat).
Proof.
  cbn zeta.
  destruct (closing_untouched terminated tie) as [_ [_ [_ C4]]].
  assert (Cq : storeFailureRequests (closing p terminated tie) = [])
    by (unfold storeFailureRequests; now rewrite C4).
  destruct (consume_shape blocks terminated tie)
    as [[Hc ->] | [pre [x [post [err [-> [Hpre [Hfail ->]]]]]]]].
  - destruct (clean_prefix_observed blocks Hc) as [_ [_ [H3 _]]].
    rewrite storeFailureRequests_app, H3, Cq. cbn [app length].
    split; [lia |]. split; [reflexivity | congruence].
  - destruct (clean_prefix_observed pre Hpre) as [_ [_ [H3 _]]].
    destruct (dropped_observed post) as [_ [_ [_ D4]]].
    assert (Dq : storeFailureRequests (map (fun d => Dropped (block d)) post) = [])
      by (unfold storeFailureRequests; now rewrite D4).
    rewrite !storeFailureRequests_app, H3, Dq, Cq.
    change (storeFailureRequests
              [StoreBlock (block x);
               GoShutdown (Some (Wrapf "archiver store block failed: %w" err))])
      with [Some (Wrapf "archiver store block failed: %w" err)].
    cbn [app length].
    split; [lia |]. split; [| reflexivity].
    intros Hall. rewrite forallb_app in Hall. apply andb_true_iff in Hall.
    destruct Hall as [_ Hall]. cbn [forallb] in Hall.
    apply andb_true_iff in Hall. destruct Hall as [Hx _].
    rewrite Hfail in Hx. discriminate Hx.
Qed.

End Uploader.

Lemma uploader_blocks_stored_or_dropped_witness :
  droppedBlocks
    (trace_of (MindReaderUploader.consumeReadFlow uploaderPlugin
                 [mkDelivery block1 None (Some (Foreign "stream closed")) false;
                  delivered block2] None false))
  = [].
Proof.
  apply (proj1 (proj2 (uploader_blocks_stored_or_dropped Block uploaderPlugin
                         [mkDelivery block1 None (Some (Foreign "stream closed")) false;
                          delivered block2] None false))).
  reflexivity.
Defined.

Lemma uploader_requests_shutdown_once_witness :
  length (storeFailureRequests
            (trace_of (MindReaderUploader.consumeReadFlow uploaderPlugin
                         [storeFailure block1; storeFailure block2] None false)))
  = 1%nat.
Proof.
  apply (proj2 (proj2 (uploader_requests_shutdown_once Block uploaderPlugin
                         [storeFailure block1; storeFailure block2] None false))).
  reflexivity.
Defined.

End ConsumerFacts.

(** ** [Launch], [LogLine] and [Stop] *)

Module LifecycleFacts.
Import Go Bstream Effects IngestDefs Observe.

Lemma LogLine_room (r : MindReader.Running) (c : chan string) (line : string) :
  MindReader.terminating r = false ->
  MindReader.lines r = Some c ->
  closed c = false ->
  (N.of_nat (length (buf c)) < cap c)%N ->
  MindReader.LogLine r line
  = MindReader.Done
      (MindReader.mkRunning false (Some (mkChan (cap c) (buf c ++ [line]) false))).
Proof.
  intros Ht Hl Hc Hroom. unfold MindReader.LogLine, send.
  rewrite Ht, Hl, Hc. apply N.ltb_lt in Hroom. rewrite Hroom. reflexivity.
Qed.

(** X12: while the plugin is not terminating, [LogLine] queues lines
    behind the ones already on [lines], in call order, as long as the
    channel has room ([Launch] gives it room for 10000 lines); on a full
    channel the call does not return until a line is received. *)
Theorem LogLine_queues_in_order (ls : list string) (r : MindReader.Running)
    (c : chan string) :
  MindReader.terminating r = false ->
  MindReader.lines r = Some c ->
  closed c = false ->
  ((N.of_nat (length (buf c) + length ls) <= cap c)%N ->
   logLines r ls
   = MindReader.Done
       (MindReader.mkRunning false (Some (mkChan (cap c) (buf c ++ ls) false))))
  /\ ((cap c <= N.of_nat (length (buf c)))%N ->
      forall line, MindReader.LogLine r line = MindReader.Waits).
Proof.
  intros Ht Hl Hc. split.
  - revert r c Ht Hl Hc. induction ls as [|l ls IH]; intros r c Ht Hl Hc Hroom.
    + cbn [logLines]. rewrite app_nil_r. destruct r as [t l0]. cbn in *.
      subst. destruct c as [cp bf cl]. cbn in *. subst. reflexivity.
    + cbn [logLines]. cbn [length] in Hroom.
      rewrite (LogLine_room r c l Ht Hl Hc) by lia.
      rewrite (IH (MindReader.mkRunning false
                     (Some (mkChan (cap c) (buf c ++ [l]) false)))
                  (mkChan (cap c) (buf c ++ [l]) false) eq_refl eq_refl eq_refl).
      * cbn [cap buf]. now rewrite <- app_assoc.
      * cbn [cap buf]. rewrite length_app. cbn [length]. lia.
  - intros Hfull line. unfold MindReader.LogLine, send. rewrite Ht, Hl, Hc.
    replace (N.ltb (N.of_nat (length (buf c))) (cap c)) with false
      by (symmetry; apply N.ltb_ge; exact Hfull).
    reflexivity.
Qed.

Lemma LogLine_queues_in_order_witness :
  logLines launched ["a"; "b"; "c"]
  = MindReader.Done
      (MindReader.mkRunning false (Some (mkChan 10000 ["a"; "b"; "c"] false)))
  /\ MindReader.LogLine
       (MindReader.mkRunning false (Some (mkChan 2 ["a"; "b"] false))) "c"
     = MindReader.Waits.
Proof.
  split.
  - apply (proj1 (LogLine_queues_in_order ["a"; "b"; "c"] launched
                    (mkChan 10000 [] false) eq_refl eq_refl eq_refl)).
    vm_compute. discriminate.
  - apply (proj2 (LogLine_queues_in_order []
                    (MindReader.mkRunning false (Some (mkChan 2 ["a"; "b"] false)))
                    (mkChan 2 ["a"; "b"] false) eq_refl eq_refl eq_refl)).
    vm_compute. discriminate.
Defined.

(** X13: [Stop] of src/mindreader/mindreader.go does nothing before
    [Launch].  On the launched plugin it raises the terminating flag and
    closes [lines] keeping the queued lines: [drainMessages] then receives
    them all, in order, and returns; every later [LogLine] returns without
    touching the closed channel; a second [Stop] panics on the closed
    channel. *)
Theorem Stop_keeps_queued_lines (r : MindReader.Running) :
  (MindReader.lines r = None -> MindReader.Stop r = MindReader.Done r)
  /\ (forall c,
         MindReader.lines r = Some c -> closed c = false ->
         exists r',
           MindReader.Stop r = MindReader.Done r'
           /\ MindReader.terminating r' = true
           /\ MindReader.drainMessages (MindReader.lines r')
              = (map LinesRecv (buf c), true)
           /\ (forall line, MindReader.LogLine r' line = MindReader.Done r')
           /\ MindReader.Stop r' = MindReader.Panics).
Proof.
  split.
  - intros Hl. unfold MindReader.Stop. now rewrite Hl.
  - intros c Hl Hc.
    exists (MindReader.mkRunning true (Some (close c))).
    unfold MindReader.Stop. rewrite Hl, Hc. repeat split.
Qed.

Lemma Stop_keeps_queued_lines_witness :
  exists r',
    MindReader.Stop (MindReader.mkRunning false (Some (mkChan 10000 ["a"; "b"] false)))
    = MindReader.Done r'
    /\ MindReader.drainMessages (MindReader.lines r')
       = ([LinesRecv "a"; LinesRecv "b"], true).
Proof.
  destruct (proj2 (Stop_keeps_queued_lines
                     (MindReader.mkRunning false (Some (mkChan 10000 ["a"; "b"] false))))
              (mkChan 10000 ["a"; "b"] false) eq_refl eq_refl)
    as [r' [Hs [_ [Hd _]]]].
  exists r'. split; [exact Hs | exact Hd].
Defined.

(** X14: [Stop] of src/unnamed/part_001 closes [lines] and leaves the
    terminating flag as it is; a [LogLine] that follows while the flag is
    down panics on the closed channel, and returns without sending once
    the flag is up. *)
Theorem uploader_Stop_leaves_flag (r : MindReader.Running) (c : chan string) :
  MindReader.lines r = Some c ->
  closed c = false ->
  exists r',
    MindReaderUploader.Stop r = MindReader.Done r'
    /\ MindReader.terminating r' = MindReader.terminating r
    /\ MindReader.lines r' = Some (close c)
    /\ (forall line,
           MindReaderUploader.LogLine r' line
           = if MindReader.terminating r then MindReader.Done r' else MindReader.Panics).
Proof.
  intros Hl Hc.
  exists (MindReader.mkRunning (MindReader.terminating r) (Some (close c))).
  unfold MindReaderUploader.Stop. rewrite Hl, Hc. repeat split.
Qed.

Lemma uploader_Stop_leaves_flag_witness :
  exists r',
    MindReaderUploader.Stop launched = MindReader.Done r'
    /\ MindReaderUploader.LogLine r' "late line" = MindReader.Panics.
Proof.
  destruct (uploader_Stop_leaves_flag launched (mkChan 10000 [] false) eq_refl eq_refl)
    as [r' [Hs [_ [_ Hl]]]].
  exists r'. split; [exact Hs | apply Hl].
Defined.

End LifecycleFacts.

(** ** The two goroutines of [launch] together *)

Module LaunchFacts.
Import Go Bstream Effects EffectsFacts IngestDefs ConsumerDefs Observe.

Lemma deliveriesFrom_blocks (ans : answers) (bs : list Block) (n : nat) :
  map block (deliveriesFrom n ans bs) = bs.
Proof.
  revert n. induction bs as [|b bs IH]; intros n; [reflexivity |].
  cbn [deliveriesFrom]. destruct (ans n) as [[s pu] t]. cbn [map block].
  now rewrite IH.
Qed.

Lemma consumeReadFlow_returned (p : MindReader.MindReaderPlugin)
    (blocks : list delivery) (terminated : option Z) :
  returned (MindReader.consumeReadFlow p blocks terminated)
  = match terminated with Some _ => true | None => false end.
Proof.
  rewrite ConsumerSpec.consumeReadFlow_consumed, IngestFacts.returned_after.
  destruct terminated; reflexivity.
Qed.

(** No iteration of the consumer loop shuts the archiver down. *)
Lemma consumed_keeps_archiver (p : MindReader.MindReaderPlugin)
    (blocks : list delivery) :
  archiverShutdowns (consumed p blocks) = [].
Proof.
  induction blocks as [|d blocks IH]; [reflexivity |].
  change (consumed p (d :: blocks))
    with (fst (MindReader.consumeBlock p d) ++ consumed p blocks).
  unfold archiverShutdowns in *. rewrite flat_map_app, IH.
  unfold MindReader.consumeBlock.
  destruct (storeErr d), (isTerminating d), (MindReader.blockStreamServer p),
    (pushErr d); reflexivity.
Qed.

(** X15: with the two goroutines of [launch] of
    src/mindreader/mindreader.go running together, every block the reader
    returned before its first error is handed to [StoreBlock], once and in
    the order read, whether or not the loops return.  The consumer returns
    (and closes [consumeReadFlowDone]) exactly when the ingest loop
    returned and the archiver signals terminated.  The archiver is shut
    down once, with nil, when the ingest loop returned, and not at all as
    long as it has not (it waits for the reader, or for [lines] to be
    closed in [drainMessages]). *)
Theorem launch_stores_every_block_read (p : MindReader.MindReaderPlugin)
    (reads : list (read_result * bool)) (lines : option (chan string))
    (ans : answers) (terminated : option Z) :
  let i := fst (launch p reads lines ans terminated) in
  let c := snd (launch p reads lines ans terminated) in
  storedBlocks (trace_of c) = blocksBeforeError reads
  /\ returned c
     = returned i && match terminated with Some _ => true | None => false end
  /\ archiverShutdowns (trace_of c) = (if returned i then [None] else []).
Proof.
  cbn zeta. unfold launch. cbn [fst snd].
  set (i := MindReader.ingest p reads lines).
  set (ds := deliveriesFrom 0 ans (sentBlocks (trace_of i))).
  assert (Hds : map block ds = blocksBeforeError reads).
  { subst ds. rewrite deliveriesFrom_blocks. apply IngestFacts.ingest_sent. }
  destruct (returned i) eqn:Hi.
  - split; [| split].
    + rewrite ConsumerSpec.consumeReadFlow_consumed, IngestFacts.trace_of_after,
        ConsumerFacts.storedBlocks_app, ConsumerFacts.consumed_stored, Hds.
      destruct (ConsumerFacts.closing_observed p terminated) as [-> _].
      apply app_nil_r.
    + apply consumeReadFlow_returned.
    + rewrite ConsumerSpec.consumeReadFlow_consumed, IngestFacts.trace_of_after.
      unfold archiverShutdowns. rewrite flat_map_app.
      fold (archiverShutdowns (consumed p ds)). rewrite consumed_keeps_archiver.
      destruct terminated; reflexivity.
  - unfold consumeOpen. cbn [trace_of returned].
    change (flat_map (fun d => fst (MindReader.consumeBlock p d)) ds)
      with (consumed p ds).
    split; [| split].
    + now rewrite ConsumerFacts.consumed_stored.
    + reflexivity.
    + apply consumed_keeps_archiver.
Qed.

Lemma launch_stores_every_block_read_witness :
  storedBlocks
    (trace_of (snd (launch hookedPlugin
                      [(inl block3, false); (inr (Foreign "read failed"), false)]
                      (Some (mkChan 10000 [] false))
                      (fun _ => (None, None, false)) (Some 0%Z))))
  = [block3].
Proof.
  apply (proj1 (launch_stores_every_block_read hookedPlugin
                  [(inl block3, false); (inr (Foreign "read failed"), false)]
                  (Some (mkChan 10000 [] false))
                  (fun _ => (None, None, false)) (Some 0%Z))).
Defined.

End LaunchFacts.

(** ** The monitor, over a run *)

Module MonitorFacts.
Import Go Nodeos MonitorDefs Observe.

Local Open Scope Z_scope.

(** One pass: the counter, the probe and the log. *)
Lemma monitorPass_count (s : NodeosSuperviser) (t : tick) :
  getInfoFailureCount (monitorPass s t)
  = if failingb t then int_wrap (getInfoFailureCount s + 1) else 0.
Proof.
  unfold monitorPass, failingb. destruct (IsRunning t); [| reflexivity].
  destruct (GetInfo t) as [info | err]; cbn [negb andb].
  - match goal with |- context [if ?c then _ else _] => destruct c end;
      [rewrite MonitorSpec.setReadinessProbeOn_count |]; reflexivity.
  - match goal with |- context [if ?c then _ else _] => destruct c end;
      [rewrite MonitorSpec.setReadinessProbeOff_count |]; reflexivity.
Qed.

Lemma monitorPass_probe (s : NodeosSuperviser) (t : tick) :
  (readinessProbe (monitorPass s t) = true ->
   readinessProbe s = true \/ succeeding t = true)
  /\ (readinessProbe (monitorPass s t) = false ->
      readinessProbe s = false \/ failingb t = true).
Proof.
  unfold monitorPass, succeeding, failingb.
  destruct (IsRunning t); cbn [negb andb]; [| split; intros H; left; exact H].
  destruct (GetInfo t) as [info | err]; split; intros H; try (now right).
  - left. revert H.
    match goal with |- context [if ?c then _ else _] => destruct c end;
      [rewrite MonitorSpec.setReadinessProbeOn_probe; discriminate |].
    cbn. tauto.
  - left. revert H.
    match goal with |- context [if ?c then _ else _] => destruct c end;
      [rewrite MonitorSpec.setReadinessProbeOff_probe; discriminate |].
    cbn. tauto.
Qed.


Lemma leadingFailures_bounds (l : list tick) :
  0 <= leadingFailures l <= Z.of_nat (length l).
Proof.
  induction l as [|t l IH]; cbn [leadingFailures length]; [lia |].
  rewrite Nat2Z.inj_succ. destruct (failingb t); lia.
Qed.

(** X16: in a run of [Monitor], the failure counter after any pass is the
    number of passes, counted back from that pass, on which the node was
    running and [GetInfo] failed without interruption: a pass with the
    node stopped, or with a successful [GetInfo], restarts the count. *)
Theorem failure_count_is_trailing_failures (s : NodeosSuperviser)
    (ticks : list tick) :
  Z.of_nat (length ticks) < 2 ^ 63 ->
  getInfoFailureCount (Monitor s ticks) = leadingFailures (rev ticks).
Proof.
  unfold Monitor. induction ticks as [|t ticks IH] using rev_ind; intros Hb.
  - reflexivity.
  - rewrite fold_left_app, rev_app_distr. cbn [fold_left rev app leadingFailures].
    rewrite length_app in Hb. cbn [length] in Hb.
    rewrite monitorPass_count, IH by lia.
    destruct (failingb t); [| reflexivity].
    pose proof (leadingFailures_bounds (rev ticks)) as Hl.
    rewrite length_rev in Hl.
    rewrite MonitorSpec.int_wrap_small by lia. lia.
Qed.

Lemma failure_count_is_trailing_failures_witness :
  getInfoFailureCount
    (Monitor ready [getInfoFails; headAt 0 1; getInfoFails; getInfoFails])
  = 2.
Proof.
  rewrite (failure_count_is_trailing_failures ready
             [getInfoFails; headAt 0 1; getInfoFails; getInfoFails]);
    [reflexivity | vm_compute; reflexivity].
Defined.

(** X17: the probe is turned on only by a pass with a successful
    [GetInfo], and turned off only by a pass on which [GetInfo] fails: a
    run without a success leaves a probe that is off off, and a run
    without a failure leaves a probe that is on on; in particular passes
    with the node stopped never clear readiness. *)
Theorem probe_changes_need_GetInfo (ticks : list tick) (s : NodeosSuperviser) :
  (existsb succeeding ticks = false ->
   readinessProbe s = false ->
   readinessProbe (fold_left monitorPass ticks s) = false)
  /\ (existsb failingb ticks = false ->
      readinessProbe s = true ->
      readinessProbe (fold_left monitorPass ticks s) = true).
Proof.
  revert s. induction ticks as [|t ticks IH]; intros s.
  - split; intros _ H; exact H.
  - cbn [existsb fold_left]. destruct (monitorPass_probe s t) as [Hon Hoff].
    split; intros Hex Hs; apply orb_false_iff in Hex; destruct Hex as [Ht Hex].
    + apply (proj1 (IH (monitorPass s t)) Hex).
      destruct (readinessProbe (monitorPass s t)); [| reflexivity].
      destruct (Hon eq_refl) as [H | H]; congruence.
    + apply (proj2 (IH (monitorPass s t)) Hex).
      destruct (readinessProbe (monitorPass s t)); [reflexivity |].
      destruct (Hoff eq_refl) as [H | H]; congruence.
Qed.

Lemma probe_changes_need_GetInfo_witness :
  readinessProbe
    (fold_left monitorPass
       [mkTick false (inr EOF) 0; headAt 0 1; mkTick false (inr EOF) 2] ready)
  = true.
Proof.
  apply (proj2 (probe_changes_need_GetInfo
                  [mkTick false (inr EOF) 0; headAt 0 1; mkTick false (inr EOF) 2]
                  ready)); reflexivity.
Defined.


End MonitorFacts.
